(** * Verification of [lerobot/scripts/visualize_tri_dataset.py]

    The script loads one episode of a TRI LBM dataset (two [.npz] archives)
    and streams it to the rerun sink.  It is sequential glue code, so the
    embedding is a trace semantics: every call into a collaborator
    ([logging], [rerun], [gc], [numpy], [pathlib], [time]) is an [Event],
    and a computation is a pair of the events it performed and how it ended
    (returned, raised, or blocked in the serving loop). *)

From Stdlib Require Import String Ascii List ZArith Arith Bool Lia Floats Uint63 DecimalString.
From Stdlib Require DecimalZ.
Import ListNotations.
Set Warnings "-inexact-float,-register-all".

Local Open Scope string_scope.
Local Open Scope list_scope.

(** ** Python values used by the script *)

Module Py.

(** [str(n)] for a Python int, as the f-strings format it. *)
Definition str_of_int (z : Z) : string := NilZero.string_of_int (Z.to_int z).

Definition str_of_nat (n : nat) : string := str_of_int (Z.of_nat n).

(** [sub in s] on strings. *)
Fixpoint str_contains (sub s : string) : bool :=
  if String.prefix sub s then true
  else match s with
       | EmptyString => false
       | String _ s' => str_contains sub s'
       end.

(** [s.replace(old, new)] for one-character [old] and [new], the only form
    the script uses ([replace("/", "_")]). *)
Fixpoint str_replace (old new : ascii) (s : string) : string :=
  match s with
  | EmptyString => EmptyString
  | String c s' =>
      String (if Ascii.eqb c old then new else c) (str_replace old new s')
  end.

(** [x in xs] for a list of strings. *)
Definition str_in (x : string) (xs : list string) : bool :=
  existsb (String.eqb x) xs.

(** A Python number: [t = 0] is an int, [t += dt] makes it a float. *)
Inductive num :=
| Int (z : Z)
| Float (f : float).

(** Conversion of an int operand to binary64 (exact below 2^53; the script
    only ever converts [0]). *)
Definition float_of_int (z : Z) : float :=
  if (z <? 0)%Z
  then PrimFloat.opp (PrimFloat.of_uint63 (Uint63.of_Z (- z)))
  else PrimFloat.of_uint63 (Uint63.of_Z z).

Definition to_float (n : num) : float :=
  match n with
  | Int z => float_of_int z
  | Float f => f
  end.

(** [a + b]: int + int stays an int, anything else is a binary64 sum. *)
Definition add (a b : num) : num :=
  match a, b with
  | Int x, Int y => Int (x + y)
  | _, _ => Float (PrimFloat.add (to_float a) (to_float b))
  end.

(** [enumerate(xs)], from a start index. *)
Fixpoint enumerate_from {A : Type} (start : nat) (xs : list A) : list (nat * A) :=
  match xs with
  | [] => []
  | x :: xs' => (start, x) :: enumerate_from (S start) xs'
  end.

Definition enumerate {A : Type} (xs : list A) : list (nat * A) :=
  enumerate_from 0 xs.

(** [pathlib.Path] by its parts; [p / name] appends one part. *)
Definition Path := list string.

Definition truediv (p : Path) (name : string) : Path := p ++ [name].

(** The exceptions the script can end with. *)
Inductive exc :=
| AssertionError (msg : string)
| ValueError (arg : string)
| NameError (name : string)
| AttributeError (attr : string)
| FileNotFoundError (p : Path)
| KeyError (key : string)
| TypeError (msg : string)
| IndexError (msg : string).

(** Objects bound at module level. *)
Inductive obj :=
| Module_ (name : string)
| Function_ (name : string)
| Class_ (name : string)
| Str (s : string).

End Py.

Notation "p // name" := (Py.truediv p name) (at level 40, left associativity).

(** ** numpy arrays *)

Module Np.

Inductive scalar :=
| I (z : Z)
| F (f : float).

(** An n-dimensional array as nested sequences along its axes; [Item] is a
    0-d array or a numpy scalar.  ([Array []] stands for every array whose
    first axis is empty.) *)
Inductive ndarray :=
| Item (x : scalar)
| Array (xs : list ndarray).

(** The sub-arrays along the first axis. *)
Definition items (a : ndarray) : list ndarray :=
  match a with
  | Item _ => []
  | Array xs => xs
  end.

(** An [.npz] archive: its named arrays, in file order. *)
Definition NpzFile := list (string * ndarray).

(** [a] has exactly the shape [sh]. *)
Fixpoint has_shape (sh : list nat) (a : ndarray) : Prop :=
  match sh, a with
  | [], Item _ => True
  | n :: sh', Array xs => length xs = n /\ Forall (has_shape sh') xs
  | _, _ => False
  end.

(** [xs[::2]]: every second element, starting at index 0. *)
Fixpoint stride2 {A : Type} (xs : list A) : list A :=
  match xs with
  | [] => []
  | x :: rest =>
      x :: match rest with
           | [] => []
           | _ :: rest' => stride2 rest'
           end
  end.

(** The column part of [image[::2, ::2]] on one row; a row that is not
    itself an array has no second axis to slice. *)
Definition stride2_row (row : ndarray) : option ndarray :=
  match row with
  | Item _ => None
  | Array cols => Some (Array (stride2 cols))
  end.

Fixpoint all_some {A : Type} (xs : list (option A)) : option (list A) :=
  match xs with
  | [] => Some []
  | None :: _ => None
  | Some x :: xs' =>
      match all_some xs' with
      | Some ys => Some (x :: ys)
      | None => None
      end
  end.

(** [image[::2, ::2]]; [None] when [image] has fewer than two axes. *)
Definition getitem_stride2_2d (image : ndarray) : option ndarray :=
  match image with
  | Item _ => None
  | Array rows =>
      match all_some (map stride2_row (stride2 rows)) with
      | Some rows' => Some (Array rows')
      | None => None
      end
  end.

(** [a[r, c]] for in-range non-negative indices. *)
Definition getitem2 (a : ndarray) (r c : nat) : option ndarray :=
  match a with
  | Item _ => None
  | Array rows =>
      match nth_error rows r with
      | Some (Array cols) => nth_error cols c
      | _ => None
      end
  end.

End Np.

(** ** Events and computations *)

(** What [rr.log] is given: [rr.Scalar(val)] or [rr.Image(img)]. *)
Inductive Archetype :=
| Scalar (val : Np.ndarray)
| Image (img : Np.ndarray).

Inductive Event :=
| LoggingInfo (msg : string)
| RrInit (application_id : string) (spawn : bool)
| GcCollect
| RrServe (open_browser : bool) (web_port ws_port : Z)
| NpLoad (file : Py.Path)
| RrSetTimeSequence (timeline : string) (sequence : Z)
| RrSetTimeSeconds (timeline : string) (seconds : Py.num)
| RrLog (entity_path : string) (entity : Archetype)
| Mkdir (dir : Py.Path) (parents exist_ok : bool)
| RrSave (file : Py.Path)
| Print (msg : string)
| TimeSleep (secs : Z).

Inductive Outcome (A : Type) :=
| Returned (a : A)
| Raised (e : Py.exc)
| Blocked.

Arguments Returned {A} a.
Arguments Raised {A} e.
Arguments Blocked {A}.

(** A computation: the events performed, then the outcome. *)
Definition Run (A : Type) : Type := list Event * Outcome A.

Definition ret {A : Type} (a : A) : Run A := ([], Returned a).

Definition raise {A : Type} (e : Py.exc) : Run A := ([], Raised e).

Definition emit (ev : Event) : Run unit := ([ev], Returned tt).

Definition bind {A B : Type} (m : Run A) (k : A -> Run B) : Run B :=
  match m with
  | (tr, Returned a) => let (tr', o) := k a in (tr ++ tr', o)
  | (tr, Raised e) => (tr, Raised e)
  | (tr, Blocked) => (tr, Blocked)
  end.

Notation "x <- m ;; k" := (bind m (fun x => k))
  (at level 61, m at next level, right associativity).
Notation "m ;; k" := (bind m (fun _ => k))
  (at level 61, right associativity).

(** [for x in xs: s = body(x, s)], a loop that threads the variables it
    updates. *)
Fixpoint for_fold {A S : Type} (xs : list A) (s : S) (body : A -> S -> Run S) : Run S :=
  match xs with
  | [] => ret s
  | x :: xs' => s' <- body x s ;; for_fold xs' s' body
  end.

(** [for x in xs: body(x)]. *)
Definition for_each {A : Type} (xs : list A) (body : A -> Run unit) : Run unit :=
  for_fold xs tt (fun x _ => body x).

(** Iterating a numpy value along its first axis. *)
Definition iter (a : Np.ndarray) : Run (list Np.ndarray) :=
  match a with
  | Np.Item _ => raise (Py.TypeError "iteration over a 0-d array")
  | Np.Array xs => ret xs
  end.

Definition trace {A : Type} (m : Run A) : list Event := fst m.

Definition outcome {A : Type} (m : Run A) : Outcome A := snd m.

(** ** The world the script runs in *)

Record World := {
  (** the [.npz] archive stored at a path, if any *)
  npz_files : Py.Path -> option Np.NpzFile;
  (** [Some n]: Ctrl-C arrives in the wait loop after [n] completed
      one-second sleeps; [None]: it never arrives *)
  sigint_after : option nat;
  (** when Ctrl-C never arrives: the number of turns of the wait loop the
      run is followed for *)
  observed_sleeps : nat
}.

(** [np.load(file)]. *)
Definition np_load (w : World) (file : Py.Path) : Run Np.NpzFile :=
  emit (NpLoad file) ;;
  match npz_files w file with
  | Some npz => ret npz
  | None => raise (Py.FileNotFoundError file)
  end.

(** [npz[key]]; numpy's message for a name the archive does not hold. *)
Fixpoint npz_getitem (npz : Np.NpzFile) (key : string) : Run Np.ndarray :=
  match npz with
  | [] => raise (Py.KeyError (key ++ " is not a file in the archive"))
  | (k, v) :: npz' => if String.eqb k key then ret v else npz_getitem npz' key
  end.

(** The names bound at module level by the script's imports and [def]s. *)
Definition module_globals : list (string * Py.obj) :=
  [ ("argparse", Py.Module_ "argparse");
    ("gc", Py.Module_ "gc");
    ("logging", Py.Module_ "logging");
    ("time", Py.Module_ "time");
    ("tqdm", Py.Class_ "tqdm");
    ("Path", Py.Class_ "Path");
    ("np", Py.Module_ "numpy");
    ("rr", Py.Module_ "rerun");
    ("visualize_dataset", Py.Function_ "visualize_dataset");
    ("main", Py.Function_ "main") ].

Fixpoint lookup_name (name : string) (ns : list (string * Py.obj)) : option Py.obj :=
  match ns with
  | [] => None
  | (k, v) :: ns' => if String.eqb k name then Some v else lookup_name name ns'
  end.

(** Reading a name that is not a local of the function: a module-level
    binding, or [NameError]. *)
Definition load_global (name : string) : Run Py.obj :=
  match lookup_name name module_globals with
  | Some o => ret o
  | None => raise (Py.NameError name)
  end.

(** [o.replace("/", "_")]. *)
Definition call_replace (o : Py.obj) : Run string :=
  match o with
  | Py.Str s => ret (Py.str_replace "/"%char "_"%char s)
  | _ => raise (Py.AttributeError "replace")
  end.

(** ** The script *)

Definition dt : Py.num := Py.Float 0.1%float.

Definition assert_output_dir_msg : string :=
  "Set an output directory where to write .rrd files with `--output-dir path/to/directory`.".

(** Lines 117-121: one turn of the action loop; [t] is the running
    timestamp, returned after [t += dt]. *)
Definition log_action_frame (frame : nat * Np.ndarray) (t : Py.num) : Run Py.num :=
  let '(i, action) := frame in
  emit (RrSetTimeSequence "frame_index" (Z.of_nat i)) ;;
  emit (RrSetTimeSeconds "timestamp" t) ;;
  let t := Py.add t dt in
  vals <- iter action ;;
  for_each (Py.enumerate vals) (fun '(dim_idx, val) =>
    emit (RrLog ("action/" ++ Py.str_of_nat dim_idx) (Scalar val))) ;;
  ret t.

(** Lines 114-121: the action loop; [acts] is [actions['actions']]. *)
Definition log_actions (acts : Np.ndarray) : Run unit :=
  let t := Py.Int 0 in
  frames <- iter acts ;;
  for_fold (Py.enumerate frames) t log_action_frame ;;
  ret tt.

(** Lines 128-130: one turn of the loop over a robot channel. *)
Definition log_robot_frame (key : string) (frame : nat * Np.ndarray) : Run unit :=
  let '(i, robot_value) := frame in
  emit (RrSetTimeSequence "frame_index" (Z.of_nat i)) ;;
  vals <- iter robot_value ;;
  for_each (Py.enumerate vals) (fun '(dim_idx, val) =>
    emit (RrLog (key ++ "/" ++ Py.str_of_nat dim_idx) (Scalar val))).

(** Lines 127-130: the branch of a channel whose name contains [robot_]. *)
Definition log_robot (key : string) (value : Np.ndarray) : Run unit :=
  frames <- iter value ;;
  for_each (Py.enumerate frames) (log_robot_frame key).

(** Lines 135-138: one turn of the loop over a camera channel. *)
Definition log_camera_frame (key : string) (frame : nat * Np.ndarray) : Run unit :=
  let '(i, image) := frame in
  emit (RrSetTimeSequence "frame_index" (Z.of_nat i)) ;;
  match Np.getitem_stride2_2d image with
  | Some small => emit (RrLog key (Image small))
  | None => raise (Py.IndexError "too many indices for array")
  end.

(** Lines 134-138: the camera branch.  [tqdm] hands the frames through
    unchanged. *)
Definition log_camera (key : string) (value : Np.ndarray) : Run unit :=
  frames <- iter value ;;
  for_each (Py.enumerate frames) (log_camera_frame key).

(** Lines 126-138: the body of the loop over [observations.items()]. *)
Definition log_observation (key : string) (value : Np.ndarray) : Run unit :=
  if Py.str_contains "robot_" key then log_robot key value
  else if Py.str_contains "_depth" key then ret tt
  else log_camera key value.

(** Lines 152-156: [while True: time.sleep(1)] inside [try], left through
    [except KeyboardInterrupt].  Each turn calls [time.sleep(1)]; [sigint]
    counts the sleeps that complete before Ctrl-C arrives, which ends the
    sleep under way and runs the handler.  [fuel] bounds the turns that are
    followed: a loop still running after them is [Blocked]. *)
Fixpoint wait_loop (fuel : nat) (sigint : option nat) : Run unit :=
  match fuel with
  | O => ([], Blocked)
  | S fuel' =>
      emit (TimeSleep 1) ;;
      match sigint with
      | Some O => emit (Print "Ctrl-C received. Exiting.")
      | Some (S k) => wait_loop fuel' (Some k)
      | None => wait_loop fuel' None
      end
  end.

(** The wait loop in a world: followed to its end when Ctrl-C arrives, for
    [observed_sleeps] turns when it never does. *)
Definition serve_until_interrupt (w : World) : Run unit :=
  match sigint_after w with
  | Some n => wait_loop (S n) (Some n)
  | None => wait_loop (observed_sleeps w) None
  end.

Definition episode_dir (path : Py.Path) (episode_index : Z) : Py.Path :=
  path // "diffusion_spartan" // ("episode_" ++ Py.str_of_int episode_index) // "processed".

(** Lines 108-138: load the two archives and stream them. *)
Definition stream_episode (w : World) (path : Py.Path) (episode_index : Z) : Run unit :=
  emit (LoggingInfo "Logging to Rerun") ;;
  emit (LoggingInfo "Loading actions.") ;;
  actions <- np_load w (episode_dir path episode_index // "actions.npz") ;;
  acts <- npz_getitem actions "actions" ;;
  log_actions acts ;;
  observations <- np_load w (episode_dir path episode_index // "observations.npz") ;;
  for_each observations (fun '(key, value) => log_observation key value).

(** Lines 140-156: what happens once everything was streamed. *)
Definition finalize (w : World) (episode_index : Z) (mode : string) (save : bool)
    (output_dir : option Py.Path) : Run (option Py.Path) :=
  if (mode =? "local") && save then
    match output_dir with
    | None => raise (Py.TypeError "expected str, bytes or os.PathLike object, not NoneType")
    | Some output_dir =>
        emit (Mkdir output_dir true true) ;;
        repo_id <- load_global "repo_id" ;;
        repo_id_str <- call_replace repo_id ;;
        let rrd_path :=
          output_dir // (repo_id_str ++ "_episode_" ++ Py.str_of_int episode_index ++ ".rrd") in
        emit (RrSave rrd_path) ;;
        ret (Some rrd_path)
    end
  else if mode =? "distant" then
    emit (Print "Data sent; press Ctrl-C to terminate the websocket connection.") ;;
    serve_until_interrupt w ;;
    ret None
  else ret None.

Definition visualize_dataset (w : World) (path : Py.Path) (episode_index : Z)
    (mode : string) (web_port ws_port : Z) (save : bool)
    (output_dir : option Py.Path) : Run (option Py.Path) :=
  (if save
   then match output_dir with
        | Some _ => ret tt
        | None => raise (Py.AssertionError assert_output_dir_msg)
        end
   else ret tt) ;;
  emit (LoggingInfo "Starting Rerun") ;;
  (if negb (Py.str_in mode ["local"; "distant"])
   then raise (Py.ValueError mode)
   else ret tt) ;;
  let spawn_local_viewer := (mode =? "local") && negb save in
  emit (RrInit ("episode_" ++ Py.str_of_int episode_index) spawn_local_viewer) ;;
  emit GcCollect ;;
  (if mode =? "distant"
   then emit (RrServe false web_port ws_port)
   else ret tt) ;;
  stream_episode w path episode_index ;;
  finalize w episode_index mode save output_dir.

(** ** The sink's timelines

    [rr.set_time_sequence] and [rr.set_time_seconds] set the current value
    of a timeline; every later [rr.log] is recorded at the current value of
    each timeline. *)

Record Clock := {
  frame_index : option Z;
  timestamp : option Py.num
}.

Definition clock0 : Clock := {| frame_index := None; timestamp := None |}.

Record Record_ := {
  rec_path : string;
  rec_entity : Archetype;
  rec_frame_index : option Z;
  rec_timestamp : option Py.num
}.

Definition tick (c : Clock) (ev : Event) : Clock :=
  match ev with
  | RrSetTimeSequence timeline i =>
      if timeline =? "frame_index"
      then {| frame_index := Some i; timestamp := timestamp c |}
      else c
  | RrSetTimeSeconds timeline t =>
      if timeline =? "timestamp"
      then {| frame_index := frame_index c; timestamp := Some t |}
      else c
  | _ => c
  end.

(** The records the sink holds after a trace, oldest first. *)
Fixpoint records (c : Clock) (tr : list Event) : list Record_ :=
  match tr with
  | [] => []
  | RrLog p e :: tr' =>
      {| rec_path := p; rec_entity := e;
         rec_frame_index := frame_index c; rec_timestamp := timestamp c |}
      :: records c tr'
  | ev :: tr' => records (tick c ev) tr'
  end.

Definition final_clock (c : Clock) (tr : list Event) : Clock :=
  fold_left tick tr c.

(** Projections of a trace. *)
Definition is_scalar_log (ev : Event) : bool :=
  match ev with RrLog _ (Scalar _) => true | _ => false end.

Definition is_image_log (ev : Event) : bool :=
  match ev with RrLog _ (Image _) => true | _ => false end.

Definition is_log (ev : Event) : bool :=
  match ev with RrLog _ _ => true | _ => false end.

Definition is_time_update (ev : Event) : bool :=
  match ev with
  | RrSetTimeSequence _ _ | RrSetTimeSeconds _ _ => true
  | _ => false
  end.

Definition is_set_time_seconds (ev : Event) : bool :=
  match ev with RrSetTimeSeconds _ _ => true | _ => false end.

(** The values the frame-index axis is set to, in order. *)
Fixpoint frame_index_values (tr : list Event) : list Z :=
  match tr with
  | [] => []
  | RrSetTimeSequence timeline i :: tr' =>
      if timeline =? "frame_index"
      then i :: frame_index_values tr'
      else frame_index_values tr'
  | _ :: tr' => frame_index_values tr'
  end.

(** The values the timestamp axis is set to, in order. *)
Fixpoint timestamp_values (tr : list Event) : list Py.num :=
  match tr with
  | [] => []
  | RrSetTimeSeconds timeline t :: tr' =>
      if timeline =? "timestamp"
      then t :: timestamp_values tr'
      else timestamp_values tr'
  | _ :: tr' => timestamp_values tr'
  end.

(** Events that reach the sink, the filesystem, the network or another
    process; [logging.info] does not. *)
Definition is_io (ev : Event) : bool :=
  match ev with
  | LoggingInfo _ => false
  | _ => true
  end.

(** The timestamp after [i] increments of the running total. *)
Fixpoint running_total (i : nat) : Py.num :=
  match i with
  | O => Py.Int 0
  | S k => Py.add (running_total k) dt
  end.

(** ** What the sink is expected to hold *)

Definition mk_record (c : Clock) (p : string) (e : Archetype) : Record_ :=
  {| rec_path := p; rec_entity := e;
     rec_frame_index := frame_index c; rec_timestamp := timestamp c |}.

(** One scalar record per (frame, dimension) pair, frame by frame: the
    record of dimension [d] of frame [i] is at path [path_of d], at frame
    index [i] and at the timestamp [stamp i]. *)
Definition scalar_records (path_of : nat -> string) (stamp : nat -> option Py.num)
    (frames : list Np.ndarray) : list Record_ :=
  flat_map (fun '(i, frame) =>
    map (fun '(d, val) =>
           {| rec_path := path_of d; rec_entity := Scalar val;
              rec_frame_index := Some (Z.of_nat i); rec_timestamp := stamp i |})
        (Py.enumerate (Np.items frame)))
    (Py.enumerate frames).

(** One image record per frame at path [key]. *)
Definition image_records (key : string) (stamp : option Py.num)
    (images : list Np.ndarray) : list Record_ :=
  map (fun '(i, img) =>
         {| rec_path := key; rec_entity := Image img;
            rec_frame_index := Some (Z.of_nat i); rec_timestamp := stamp |})
      (Py.enumerate images).

(** ceil(n / 2) *)
Definition ceil_half (n : nat) : nat := (n + 1) / 2.

(** The loops of the script that emit records. *)
Inductive Loop :=
| ActionLoop (acts : Np.ndarray)
| ChannelLoop (key : string) (value : Np.ndarray).

Definition run_loop (l : Loop) : Run unit :=
  match l with
  | ActionLoop acts => log_actions acts
  | ChannelLoop key value => log_observation key value
  end.

(** ** The trace of a loop over frames

    Each turn of a loop sets the time axes ([hdr i]) and then logs what
    [logs] takes from the frame. *)

Definition log_events (logs : list (string * Archetype)) : list Event :=
  map (fun pe => RrLog (fst pe) (snd pe)) logs.

Definition frame_events (hdr : nat -> list Event)
    (logs : Np.ndarray -> list (string * Archetype))
    (frame : nat * Np.ndarray) : list Event :=
  hdr (fst frame) ++ log_events (logs (snd frame)).

Definition frame_records (clk : nat -> Clock)
    (logs : Np.ndarray -> list (string * Archetype))
    (frames : list (nat * Np.ndarray)) : list Record_ :=
  flat_map (fun frame =>
    map (fun pe => mk_record (clk (fst frame)) (fst pe) (snd pe)) (logs (snd frame)))
    frames.

Definition scalar_logs (path_of : nat -> string) (frame : Np.ndarray)
    : list (string * Archetype) :=
  map (fun dv => (path_of (fst dv), Scalar (snd dv))) (Py.enumerate (Np.items frame)).

Definition image_logs (key : string) (frame : Np.ndarray) : list (string * Archetype) :=
  match Np.getitem_stride2_2d frame with
  | Some small => [(key, Image small)]
  | None => []
  end.

Definition action_path (d : nat) : string := "action/" ++ Py.str_of_nat d.

Definition channel_path (key : string) (d : nat) : string :=
  key ++ "/" ++ Py.str_of_nat d.

Definition action_hdr (i : nat) : list Event :=
  [RrSetTimeSequence "frame_index" (Z.of_nat i);
   RrSetTimeSeconds "timestamp" (running_total i)].

Definition channel_hdr (i : nat) : list Event :=
  [RrSetTimeSequence "frame_index" (Z.of_nat i)].

Definition action_clock (i : nat) : Clock :=
  {| frame_index := Some (Z.of_nat i); timestamp := Some (running_total i) |}.

Definition channel_clock (c : Clock) (i : nat) : Clock :=
  {| frame_index := Some (Z.of_nat i); timestamp := timestamp c |}.

Definition is_array (a : Np.ndarray) : Prop :=
  match a with
  | Np.Array _ => True
  | Np.Item _ => False
  end.

(** ** Concrete worlds for the examples *)

Fixpoint path_eqb (p q : Py.Path) : bool :=
  match p, q with
  | [], [] => true
  | a :: p', b :: q' => String.eqb a b && path_eqb p' q'
  | _, _ => false
  end.

Fixpoint files_of (fs : list (Py.Path * Np.NpzFile)) (p : Py.Path) : option Np.NpzFile :=
  match fs with
  | [] => None
  | (q, npz) :: fs' => if path_eqb q p then Some npz else files_of fs' p
  end.

Definition ints (zs : list Z) : Np.ndarray :=
  Np.Array (map (fun z => Np.Item (Np.I z)) zs).

Definition matrix (rows : list (list Z)) : Np.ndarray :=
  Np.Array (map ints rows).

(** [l] runs over [T] frames and logs [n] records in each of them; a
    depth channel has no loop, hence no frame. *)
Definition loop_frames (T n : nat) (l : Loop) : Prop :=
  match l with
  | ActionLoop acts => Np.has_shape [T; n] acts
  | ChannelLoop key value =>
      if Py.str_contains "robot_" key then Np.has_shape [T; n] value
      else if Py.str_contains "_depth" key then T = 0
      else n = 1 /\ exists H W C, Np.has_shape [T; H; W; C] value
  end.

(** The frame index grows by one with every record of the loop: record
    number k is at frame index k. *)
Definition frame_index_per_record (c : Clock) (l : Loop) : Prop :=
  map rec_frame_index (records c (trace (run_loop l)))
  = map (fun k => Some (Z.of_nat k))
        (seq 0 (length (records c (trace (run_loop l))))).

(** The events of the streaming part of the script. *)
Definition is_stream_event (ev : Event) : bool :=
  match ev with
  | LoggingInfo _ | NpLoad _ | RrSetTimeSequence _ _ | RrSetTimeSeconds _ _
  | RrLog _ _ => true
  | _ => false
  end.

Definition spawns_viewer (ev : Event) : bool :=
  match ev with
  | RrInit _ spawn => spawn
  | _ => false
  end.

Definition is_save (ev : Event) : bool :=
  match ev with RrSave _ => true | _ => false end.

(** The events of the finalization. *)
Definition is_finalize_event (ev : Event) : bool :=
  match ev with
  | Mkdir _ _ _ | RrSave _ | Print _ | TimeSleep _ => true
  | _ => false
  end.

(** The events before the archives are loaded, for a valid [mode]. *)
Definition prelude (episode_index : Z) (mode : string) (web_port ws_port : Z)
    (save : bool) : list Event :=
  [LoggingInfo "Starting Rerun";
   RrInit ("episode_" ++ Py.str_of_int episode_index) ((mode =? "local") && negb save);
   GcCollect]
  ++ (if mode =? "distant" then [RrServe false web_port ws_port] else []).

Definition actions_5x2 : Np.ndarray :=
  matrix [[0; 1]; [2; 3]; [4; 5]; [6; 7]; [8; 9]]%Z.

(** Two frames of a 3 x 3 single-channel image. *)
Definition frames_2x3x3x1 : Np.ndarray :=
  Np.Array
    [ Np.Array [matrix [[11]; [12]; [13]]; matrix [[21]; [22]; [23]]; matrix [[31]; [32]; [33]]]%Z;
      Np.Array [matrix [[41]; [42]; [43]]; matrix [[51]; [52]; [53]]; matrix [[61]; [62]; [63]]]%Z ].

(** The episode of the end-to-end scenarios: 5 frames of 2 action
    dimensions under [/data/ep], episode 3, and no observation channel. *)
Definition world_ep3 : World :=
  {| npz_files := files_of
       [ (["/"; "data"; "ep"; "diffusion_spartan"; "episode_3"; "processed"; "actions.npz"],
          [("actions", actions_5x2)]);
         (["/"; "data"; "ep"; "diffusion_spartan"; "episode_3"; "processed"; "observations.npz"],
          []) ];
     sigint_after := Some 0%nat; observed_sleeps := 0 |}.

(** ** The rest of the script *)

(** Lines 125-138: the loop over [observations.items()]. *)
Definition log_observations (observations : Np.NpzFile) : Run unit :=
  for_each observations (fun '(key, value) => log_observation key value).

(** The paths of the two archives of an episode (lines 112 and 123). *)
Definition actions_file (path : Py.Path) (episode_index : Z) : Py.Path :=
  episode_dir path episode_index // "actions.npz".

Definition observations_file (path : Py.Path) (episode_index : Z) : Py.Path :=
  episode_dir path episode_index // "observations.npz".

(** The events up to the first [np.load] included. *)
Definition loading_actions (path : Py.Path) (episode_index : Z) : list Event :=
  [LoggingInfo "Logging to Rerun"; LoggingInfo "Loading actions.";
   NpLoad (actions_file path episode_index)].

(** A channel the dispatch skips: [_depth] in its name and no [robot_]. *)
Definition skipped (key : string) : bool :=
  negb (Py.str_contains "robot_" key) && Py.str_contains "_depth" key.

Definition is_serve (ev : Event) : bool :=
  match ev with RrServe _ _ _ => true | _ => false end.

(** Events that create something on disk. *)
Definition writes_disk (ev : Event) : bool :=
  match ev with
  | Mkdir _ _ _ | RrSave _ => true
  | _ => false
  end.

(** Truth value of a Python int. *)
Definition int_truth (z : Z) : bool := negb (z =? 0)%Z.

(** What [parser.parse_args()] holds for a command line that argparse
    accepts, after the conversions the parser declares ([type=Path],
    [type=int], [type=str]); [None] for an option that was not given.
    [cli_output_dir] is the directory by the parts of [Path(output_dir)]. *)
Record Cli := {
  cli_path : Py.Path;
  cli_episode_index : Z;
  cli_mode : option string;
  cli_web_port : option Z;
  cli_ws_port : option Z;
  cli_save : option Z;
  cli_output_dir : option Py.Path
}.

Definition with_default {A : Type} (default : A) (given : option A) : A :=
  match given with
  | Some a => a
  | None => default
  end.

(** Lines 159-214: [main()].  The parser's defaults fill the options that
    were not given; the call of [visualize_dataset] on the parsed arguments,
    by keyword, gets [save] as an int, which it only tests for truth; its
    result is dropped. *)
Definition main (w : World) (cli : Cli) : Run unit :=
  let mode := with_default "local" (cli_mode cli) in
  let web_port := with_default 9090%Z (cli_web_port cli) in
  let ws_port := with_default 9087%Z (cli_ws_port cli) in
  let save := with_default 0%Z (cli_save cli) in
  visualize_dataset w (cli_path cli) (cli_episode_index cli) mode web_port ws_port
    (int_truth save) (cli_output_dir cli) ;;
  ret tt.

(** ** More worlds for the examples *)

Definition ep3_dir : Py.Path :=
  ["/"; "data"; "ep"; "diffusion_spartan"; "episode_3"; "processed"].

(** No archive at all. *)
Definition world_no_files : World :=
  {| npz_files := files_of []; sigint_after := None; observed_sleeps := 0 |}.

(** An actions archive without the [actions] array. *)
Definition world_no_actions_key : World :=
  {| npz_files := files_of [(ep3_dir // "actions.npz", [("summary", ints [1]%Z)])];
     sigint_after := None; observed_sleeps := 0 |}.

(** The actions archive alone. *)
Definition world_no_observations : World :=
  {| npz_files := files_of [(ep3_dir // "actions.npz", [("actions", actions_5x2)])];
     sigint_after := None; observed_sleeps := 0 |}.

(** Both archives; a robot channel, a depth channel and a camera. *)
Definition observations_ep3 : Np.NpzFile :=
  [("robot_state", matrix [[1; 2]; [3; 4]]%Z);
   ("camera_front_depth", frames_2x3x3x1);
   ("camera_front", frames_2x3x3x1)].

Definition world_full : World :=
  {| npz_files := files_of
       [(ep3_dir // "actions.npz", [("actions", actions_5x2)]);
        (ep3_dir // "observations.npz", observations_ep3)];
     sigint_after := Some 2%nat; observed_sleeps := 0 |}.

(** Both archives, and no interrupt ever; the wait loop is followed for
    four turns. *)
Definition world_never_interrupted : World :=
  {| npz_files := npz_files world_full; sigint_after := None; observed_sleeps := 4 |}.

Definition cli_ep3 : Cli :=
  {| cli_path := ["/"; "data"; "ep"]; cli_episode_index := 3;
     cli_mode := None; cli_web_port := None; cli_ws_port := None;
     cli_save := None; cli_output_dir := None |}.

(** [--mode distant --save -1], no output directory. *)
Definition cli_save_no_dir : Cli :=
  {| cli_path := ["/"; "data"; "ep"]; cli_episode_index := 3;
     cli_mode := Some "distant"; cli_web_port := None; cli_ws_port := None;
     cli_save := Some (-1)%Z; cli_output_dir := None |}.

(** [--save 1 --output-dir path/to/directory], the second example of the
    docstring. *)
Definition cli_save_dir : Cli :=
  {| cli_path := ["/"; "data"; "ep"]; cli_episode_index := 3;
     cli_mode := None; cli_web_port := None; cli_ws_port := None;
     cli_save := Some 1%Z; cli_output_dir := Some ["path"; "to"; "directory"] |}.

(** ** The timestamps in the spec's words *)

(** A running total that starts at 0.0 and grows by 0.1 per frame, in
    binary64. *)
Fixpoint float_running_total (i : nat) : float :=
  match i with
  | O => 0%float
  | S k => PrimFloat.add (float_running_total k) 0.1%float
  end.

(** The timestamp set for frame [i]: the int 0 for the first frame, the
    float running total after it. *)
Definition frame_timestamp (i : nat) : Py.num :=
  match i with
  | O => Py.Int 0
  | S _ => Py.Float (float_running_total i)
  end.

(** [i * 0.1], the binary64 product. *)
Definition nominal_timestamp (i : nat) : float :=
  PrimFloat.mul (Py.float_of_int (Z.of_nat i)) 0.1%float.

(** The timestamps set along a trace are the products [i * 0.1], compared
    as numbers. *)
Definition timestamps_are_products (tr : list Event) : Prop :=
  forall i t,
    nth_error (timestamp_values tr) i = Some t ->
    PrimFloat.eqb (Py.to_float t) (nominal_timestamp i) = true.

(** The running totals of the [n] frames from frame [i] on, [acc] being
    that of frame [i], are all within [bound] of the products. *)
Fixpoint drift_within (bound : float) (n i : nat) (acc : float) : bool :=
  match n with
  | O => true
  | S n' =>
      PrimFloat.leb (PrimFloat.abs (PrimFloat.sub acc (nominal_timestamp i))) bound
      && drift_within bound n' (S i) (PrimFloat.add acc 0.1%float)
  end.

(** Seven frames of one action dimension. *)
Definition actions_7x1 : Np.ndarray :=
  matrix [[0]; [1]; [2]; [3]; [4]; [5]; [6]]%Z.

(** ** Computations *)

Section RunFacts.

Context {A B : Type}.

Lemma bind_returned (m : Run A) (k : A -> Run B) tr a :
  m = (tr, Returned a) ->
  bind m k = (tr ++ trace (k a), outcome (k a)).
Proof.
  intros ->. unfold bind, trace, outcome. now destruct (k a).
Qed.

Lemma bind_raised (m : Run A) (k : A -> Run B) tr e :
  m = (tr, Raised e) -> bind m k = (tr, Raised e).
Proof. now intros ->. Qed.

Lemma bind_emit (ev : Event) (k : unit -> Run B) :
  bind (emit ev) k = (ev :: trace (k tt), outcome (k tt)).
Proof. unfold emit, bind, trace, outcome. now destruct (k tt). Qed.

Lemma bind_ret (a : A) (k : A -> Run B) : bind (ret a) k = k a.
Proof. unfold ret, bind. now destruct (k a). Qed.

Lemma run_eta (m : Run A) : m = (trace m, outcome m).
Proof. now destruct m. Qed.

End RunFacts.

Lemma for_each_cons {A : Type} (x : A) xs (body : A -> Run unit) :
  for_each (x :: xs) body = (body x ;; for_each xs body).
Proof.
  unfold for_each. simpl. unfold bind.
  now destruct (body x) as [tr [[]| |]].
Qed.

Lemma for_each_returned {A : Type} (f : A -> list Event) (body : A -> Run unit) xs :
  Forall (fun x => body x = (f x, Returned tt)) xs ->
  for_each xs body = (flat_map f xs, Returned tt).
Proof.
  induction 1 as [|x xs Hx _ IH]; [reflexivity|].
  rewrite for_each_cons, (bind_returned _ _ _ _ Hx), IH. reflexivity.
Qed.

Lemma for_each_emit {A : Type} (f : A -> Event) xs :
  for_each xs (fun x => emit (f x)) = (map f xs, Returned tt).
Proof.
  rewrite (for_each_returned (fun x => [f x])).
  - reflexivity.
  - now apply Forall_forall.
Qed.

(** ** Arrays *)

Lemma has_shape_cons n sh a :
  Np.has_shape (n :: sh) a ->
  a = Np.Array (Np.items a) /\ length (Np.items a) = n /\
  Forall (Np.has_shape sh) (Np.items a).
Proof.
  destruct a as [x|xs]; simpl; [tauto|]. intros [Hlen Hall]. auto.
Qed.

Lemma has_shape_is_array n sh a : Np.has_shape (n :: sh) a -> is_array a.
Proof. destruct a; simpl; tauto. Qed.

Lemma iter_array a : is_array a -> iter a = ret (Np.items a).
Proof. destruct a; simpl; [tauto|reflexivity]. Qed.

Lemma enumerate_from_length {A : Type} k (xs : list A) :
  length (Py.enumerate_from k xs) = length xs.
Proof. revert k. induction xs; simpl; auto. Qed.

Lemma enumerate_from_fst {A : Type} k (xs : list A) :
  map fst (Py.enumerate_from k xs) = seq k (length xs).
Proof. revert k. induction xs; intros; simpl; f_equal; auto. Qed.

Lemma enumerate_from_snd {A : Type} k (xs : list A) :
  map snd (Py.enumerate_from k xs) = xs.
Proof. revert k. induction xs; intros; simpl; f_equal; auto. Qed.

Lemma Forall_enumerate_from {A : Type} (P : A -> Prop) k xs :
  Forall P xs -> Forall (fun ix => P (snd ix)) (Py.enumerate_from k xs).
Proof.
  intros H. revert k. induction H; intros; simpl; constructor; auto.
Qed.

(** ** The records of a trace *)

Lemma records_log_events c logs rest :
  records c (log_events logs ++ rest)
  = map (fun pe => mk_record c (fst pe) (snd pe)) logs ++ records c rest.
Proof.
  induction logs as [|[p e] logs IH]; simpl; [reflexivity|].
  now rewrite IH.
Qed.

Lemma records_action_hdr c i rest :
  records c (action_hdr i ++ rest) = records (action_clock i) rest.
Proof. reflexivity. Qed.

Lemma records_channel_hdr c i rest :
  records c (channel_hdr i ++ rest) = records (channel_clock c i) rest.
Proof. reflexivity. Qed.

Section Frames.

Variable hdr : nat -> list Event.
Variable clk : Clock -> nat -> Clock.
Variable logs : Np.ndarray -> list (string * Archetype).

Hypothesis hdr_clk :
  forall c i rest, records c (hdr i ++ rest) = records (clk c i) rest.
Hypothesis clk_idem : forall c i j, clk (clk c i) j = clk c j.

Lemma records_frames c frames rest :
  records c (flat_map (frame_events hdr logs) frames ++ rest)
  = frame_records (clk c) logs frames
    ++ records (fold_left clk (map fst frames) c) rest.
Proof.
  revert c. induction frames as [|[i fr] frames IH]; intros c.
  - reflexivity.
  - cbn [flat_map map fst snd fold_left frame_records]. unfold frame_events at 1.
    cbn [fst snd].
    rewrite <- !app_assoc, hdr_clk, records_log_events, IH.
    f_equal. f_equal.
    unfold frame_records. apply flat_map_ext. intros [j fr']. cbn [fst snd].
    now rewrite clk_idem.
Qed.

End Frames.

(** ** Properties of every event of a trace, whatever the outcome *)

Section TraceForall.

Variable P : Event -> Prop.

Lemma trace_bind_Forall {A B : Type} (m : Run A) (k : A -> Run B) :
  Forall P (trace m) ->
  (forall a, Forall P (trace (k a))) ->
  Forall P (trace (bind m k)).
Proof.
  intros Hm Hk. destruct m as [tr [a| e |]]; simpl in *; auto.
  specialize (Hk a). destruct (k a) as [tr' o]. simpl in *.
  apply Forall_app; auto.
Qed.

Lemma trace_for_fold_Forall {A S : Type} (xs : list A) (s : S) (body : A -> S -> Run S) :
  (forall x s', Forall P (trace (body x s'))) ->
  Forall P (trace (for_fold xs s body)).
Proof.
  intros Hb. revert s. induction xs as [|x xs IH]; intros s; simpl.
  - constructor.
  - apply trace_bind_Forall; auto.
Qed.

Lemma trace_for_each_Forall {A : Type} (xs : list A) (body : A -> Run unit) :
  (forall x, Forall P (trace (body x))) ->
  Forall P (trace (for_each xs body)).
Proof. intros Hb. apply trace_for_fold_Forall. auto. Qed.

Lemma trace_emit_Forall ev : P ev -> Forall P (trace (emit ev)).
Proof. intros H. repeat constructor. exact H. Qed.

Lemma trace_ret_Forall {A : Type} (a : A) : Forall P (trace (ret a)).
Proof. constructor. Qed.

Lemma trace_raise_Forall {A : Type} e : Forall P (trace (@raise A e)).
Proof. constructor. Qed.

Lemma trace_iter_Forall a : Forall P (trace (iter a)).
Proof. destruct a; constructor. Qed.

End TraceForall.

(** ** The loops on well-shaped input *)

Lemma scalar_loop_run (path_of : nat -> string) vals :
  for_each (Py.enumerate vals)
    (fun '(dim_idx, val) => emit (RrLog (path_of dim_idx) (Scalar val)))
  = (log_events (map (fun dv => (path_of (fst dv), Scalar (snd dv))) (Py.enumerate vals)),
     Returned tt).
Proof.
  rewrite (for_each_returned
             (fun dv => [RrLog (path_of (fst dv)) (Scalar (snd dv))])).
  - f_equal. unfold log_events. rewrite map_map. cbn [fst snd].
    induction (Py.enumerate vals) as [|[d v] l IH]; simpl; congruence.
  - apply Forall_forall. now intros [d v] _.
Qed.

Lemma log_action_frame_run i action t :
  is_array action ->
  log_action_frame (i, action) t
  = ([RrSetTimeSequence "frame_index" (Z.of_nat i); RrSetTimeSeconds "timestamp" t]
       ++ log_events (scalar_logs action_path action),
     Returned (Py.add t dt)).
Proof.
  intros Ha. unfold log_action_frame.
  rewrite !bind_emit, (iter_array _ Ha), bind_ret.
  change (fun '(dim_idx, val) => emit (RrLog ("action/" ++ Py.str_of_nat dim_idx) (Scalar val)))
    with (fun '(dim_idx, val) => emit (RrLog (action_path dim_idx) (Scalar val))).
  rewrite scalar_loop_run. cbn. now rewrite app_nil_r.
Qed.

Lemma action_loop_run k frames :
  Forall is_array frames ->
  for_fold (Py.enumerate_from k frames) (running_total k) log_action_frame
  = (flat_map (frame_events action_hdr (scalar_logs action_path))
       (Py.enumerate_from k frames),
     Returned (running_total (k + length frames))).
Proof.
  intros H. revert k. induction H as [|fr frames Hfr _ IH]; intros k.
  - simpl. now rewrite Nat.add_0_r.
  - cbn [Py.enumerate_from for_fold flat_map length].
    rewrite (bind_returned _ _ _ _ (log_action_frame_run k fr _ Hfr)).
    change (Py.add (running_total k) dt) with (running_total (S k)).
    rewrite IH. cbn [trace outcome fst snd]. rewrite Nat.add_succ_r. reflexivity.
Qed.

Lemma log_actions_run acts :
  is_array acts -> Forall is_array (Np.items acts) ->
  log_actions acts
  = (flat_map (frame_events action_hdr (scalar_logs action_path))
       (Py.enumerate (Np.items acts)),
     Returned tt).
Proof.
  intros Ha Hfr. unfold log_actions.
  rewrite (iter_array _ Ha), bind_ret.
  rewrite (bind_returned _ _ _ _ (action_loop_run 0 _ Hfr)).
  cbn. now rewrite app_nil_r.
Qed.

Lemma log_robot_frame_run key i robot_value :
  is_array robot_value ->
  log_robot_frame key (i, robot_value)
  = (frame_events channel_hdr (scalar_logs (channel_path key)) (i, robot_value),
     Returned tt).
Proof.
  intros Ha. unfold log_robot_frame.
  rewrite bind_emit, (iter_array _ Ha), bind_ret.
  change (fun '(dim_idx, val) => emit (RrLog (key ++ "/" ++ Py.str_of_nat dim_idx) (Scalar val)))
    with (fun '(dim_idx, val) => emit (RrLog (channel_path key dim_idx) (Scalar val))).
  rewrite scalar_loop_run. reflexivity.
Qed.

Lemma log_robot_run key value :
  is_array value -> Forall is_array (Np.items value) ->
  log_robot key value
  = (flat_map (frame_events channel_hdr (scalar_logs (channel_path key)))
       (Py.enumerate (Np.items value)),
     Returned tt).
Proof.
  intros Ha Hfr. unfold log_robot.
  rewrite (iter_array _ Ha), bind_ret.
  apply for_each_returned.
  apply Forall_forall. intros [i fr] Hin.
  apply log_robot_frame_run.
  apply (Forall_enumerate_from is_array 0) in Hfr.
  rewrite Forall_forall in Hfr. exact (Hfr _ Hin).
Qed.

Lemma log_camera_frame_run key i image :
  Np.getitem_stride2_2d image <> None ->
  log_camera_frame key (i, image)
  = (frame_events channel_hdr (image_logs key) (i, image), Returned tt).
Proof.
  intros Hs. unfold log_camera_frame, frame_events, image_logs.
  rewrite bind_emit. cbn [fst snd].
  destruct (Np.getitem_stride2_2d image); [reflexivity|congruence].
Qed.

Lemma log_camera_run key value :
  is_array value ->
  Forall (fun image => Np.getitem_stride2_2d image <> None) (Np.items value) ->
  log_camera key value
  = (flat_map (frame_events channel_hdr (image_logs key))
       (Py.enumerate (Np.items value)),
     Returned tt).
Proof.
  intros Ha Hfr. unfold log_camera.
  rewrite (iter_array _ Ha), bind_ret.
  apply for_each_returned.
  apply Forall_forall. intros [i fr] Hin.
  apply log_camera_frame_run.
  apply (Forall_enumerate_from _ 0) in Hfr.
  rewrite Forall_forall in Hfr. exact (Hfr _ Hin).
Qed.

(** ** Stride-2 slicing *)

Lemma ceil_half_spec n : n <= 2 * ceil_half n < n + 2.
Proof.
  unfold ceil_half.
  pose proof (Nat.div_mod_eq (n + 1) 2) as E.
  pose proof (Nat.mod_upper_bound (n + 1) 2) as B. lia.
Qed.

Lemma ceil_half_SS n : ceil_half (S (S n)) = S (ceil_half n).
Proof.
  unfold ceil_half.
  replace (S (S n) + 1) with (n + 1 + 1 * 2) by lia.
  rewrite Nat.div_add by lia. lia.
Qed.

Lemma list_ind2 {A : Type} (P : list A -> Prop) :
  P [] -> (forall x, P [x]) -> (forall x y l, P l -> P (x :: y :: l)) ->
  forall l, P l.
Proof.
  intros H0 H1 H2 l.
  assert (P l /\ forall x, P (x :: l)) as [H _]; [|exact H].
  induction l as [|y l [IH1 IH2]]; split; auto.
Qed.

Lemma stride2_length {A : Type} (xs : list A) :
  length (Np.stride2 xs) = ceil_half (length xs).
Proof.
  induction xs as [|x|x y xs IH] using list_ind2; try reflexivity.
  cbn [Np.stride2 length]. now rewrite ceil_half_SS, IH.
Qed.

Lemma stride2_nth_error {A : Type} (xs : list A) i :
  nth_error (Np.stride2 xs) i = nth_error xs (2 * i).
Proof.
  revert i. induction xs as [|x|x y xs IH] using list_ind2; intros [|i];
    try reflexivity.
  - simpl. now destruct i.
  - cbn [Np.stride2 nth_error]. rewrite IH.
    replace (2 * S i) with (S (S (2 * i))) by lia. reflexivity.
Qed.

Lemma stride2_Forall {A : Type} (P : A -> Prop) xs :
  Forall P xs -> Forall P (Np.stride2 xs).
Proof.
  induction xs as [|x|x y xs IH] using list_ind2; intros H; simpl; auto.
  inversion H as [|? ? Hx H']; subst. inversion H' as [|? ? Hy H'']; subst.
  constructor; auto.
Qed.

Lemma all_some_rows rows :
  Forall is_array rows ->
  Np.all_some (map Np.stride2_row rows)
  = Some (map (fun row => Np.Array (Np.stride2 (Np.items row))) rows).
Proof.
  induction 1 as [|row rows Hrow _ IH]; [reflexivity|].
  destruct row as [x|cols]; [destruct Hrow|].
  cbn [map Np.all_some Np.stride2_row Np.items]. now rewrite IH.
Qed.

(** [image[::2, ::2]] of an image with at least two axes: the shape is
    halved (rounding up) along the two leading axes and the entry at
    (r, c) is the original entry at (2r, 2c). *)
Lemma getitem_stride2_2d_shape H W sh image :
  Np.has_shape (H :: W :: sh) image ->
  exists small,
    Np.getitem_stride2_2d image = Some small /\
    Np.has_shape (ceil_half H :: ceil_half W :: sh) small /\
    forall r c, Np.getitem2 small r c = Np.getitem2 image (2 * r) (2 * c).
Proof.
  intros Hsh. destruct image as [x|rows]; [destruct Hsh|].
  destruct Hsh as [Hlen Hrows].
  assert (Harr : Forall is_array rows).
  { eapply Forall_impl; [|exact Hrows]. intros a. apply has_shape_is_array. }
  exists (Np.Array (map (fun row => Np.Array (Np.stride2 (Np.items row))) (Np.stride2 rows))).
  split; [|split].
  - unfold Np.getitem_stride2_2d.
    now rewrite (all_some_rows _ (stride2_Forall _ _ Harr)).
  - cbn [Np.has_shape]. split.
    + now rewrite length_map, stride2_length, Hlen.
    + apply Forall_map. apply stride2_Forall.
      eapply Forall_impl; [|exact Hrows]. intros row Hrow.
      apply has_shape_cons in Hrow as (_ & Hl & Hcols).
      split; [now rewrite stride2_length, Hl|now apply stride2_Forall].
  - intros r c. unfold Np.getitem2.
    rewrite nth_error_map, stride2_nth_error.
    destruct (nth_error rows (2 * r)) as [row|] eqn:E; [|reflexivity].
    cbn [option_map].
    assert (Hr : is_array row).
    { rewrite Forall_forall in Harr. apply Harr. eapply nth_error_In; eauto. }
    destruct row as [x|cols]; [destruct Hr|].
    cbn [Np.items]. apply stride2_nth_error.
Qed.

(** ** What a loop over frames leaves in the sink *)

Lemma map_flat_map' {A B C : Type} (g : B -> C) (f : A -> list B) xs :
  map g (flat_map f xs) = flat_map (fun x => map g (f x)) xs.
Proof.
  induction xs as [|x xs IH]; simpl; [reflexivity|].
  now rewrite map_app, IH.
Qed.

Lemma map_const_repeat {A B : Type} (b : B) (xs : list A) :
  map (fun _ => b) xs = repeat b (length xs).
Proof. induction xs; simpl; congruence. Qed.

Lemma flat_map_enumerate_from {A B : Type} (f : nat * A -> list B) (g : nat -> list B) k xs :
  Forall (fun x => forall i, f (i, x) = g i) xs ->
  flat_map f (Py.enumerate_from k xs) = flat_map g (seq k (length xs)).
Proof.
  intros H. revert k. induction H as [|x xs Hx _ IH]; intros k; simpl.
  - reflexivity.
  - now rewrite Hx, IH.
Qed.

Lemma flat_map_length_const {A B : Type} (f : A -> list B) n xs :
  Forall (fun x => length (f x) = n) xs ->
  length (flat_map f xs) = length xs * n.
Proof.
  induction 1 as [|x xs Hx _ IH]; simpl; [reflexivity|].
  rewrite length_app. lia.
Qed.

Lemma frame_records_scalar path_of stamp (clk : nat -> Clock) frames :
  (forall i, clk i = {| frame_index := Some (Z.of_nat i); timestamp := stamp i |}) ->
  frame_records clk (scalar_logs path_of) (Py.enumerate frames)
  = scalar_records path_of stamp frames.
Proof.
  intros Hclk. unfold frame_records, scalar_records.
  apply flat_map_ext. intros [i fr]. cbn [fst snd].
  unfold scalar_logs. rewrite map_map. apply map_ext. intros [d v].
  unfold mk_record. cbn [fst snd]. now rewrite Hclk.
Qed.

Lemma frame_records_image key stamp (clk : nat -> Clock) frames images :
  (forall i, clk i = {| frame_index := Some (Z.of_nat i); timestamp := stamp |}) ->
  Forall2 (fun frame small => Np.getitem_stride2_2d frame = Some small) frames images ->
  forall k,
    frame_records clk (image_logs key) (Py.enumerate_from k frames)
    = map (fun '(i, img) =>
             {| rec_path := key; rec_entity := Image img;
                rec_frame_index := Some (Z.of_nat i); rec_timestamp := stamp |})
          (Py.enumerate_from k images).
Proof.
  intros Hclk H. induction H as [|fr small frames images Hs _ IH]; intros k.
  - reflexivity.
  - cbn [Py.enumerate_from map]. rewrite <- IH.
    unfold frame_records. cbn [flat_map fst snd]. unfold image_logs at 1.
    rewrite Hs. unfold mk_record. cbn. now rewrite Hclk.
Qed.

Section ScalarRecords.

Variable path_of : nat -> string.
Variable stamp : nat -> option Py.num.
Variables (T D : nat) (frames : list Np.ndarray).

Hypothesis frames_T : length frames = T.
Hypothesis frames_D : Forall (Np.has_shape [D]) frames.

Lemma scalar_records_length :
  length (scalar_records path_of stamp frames) = T * D.
Proof.
  unfold scalar_records. rewrite <- frames_T.
  rewrite <- (enumerate_from_length 0 frames).
  apply flat_map_length_const.
  apply Forall_forall. intros [i fr] Hin.
  rewrite length_map. unfold Py.enumerate. rewrite enumerate_from_length.
  pose proof (Forall_enumerate_from _ 0 _ frames_D) as HD.
  rewrite Forall_forall in HD. specialize (HD _ Hin).
  now apply has_shape_cons in HD.
Qed.

Lemma scalar_records_proj {B : Type} (proj : Record_ -> B) (g : nat -> nat -> B) :
  (forall i d val,
      proj {| rec_path := path_of d; rec_entity := Scalar val;
              rec_frame_index := Some (Z.of_nat i); rec_timestamp := stamp i |}
      = g i d) ->
  map proj (scalar_records path_of stamp frames)
  = flat_map (fun i => map (g i) (seq 0 D)) (seq 0 T).
Proof.
  intros Hg. unfold scalar_records. rewrite map_flat_map', <- frames_T.
  apply flat_map_enumerate_from.
  eapply Forall_impl; [|exact frames_D]. intros fr Hfr i.
  apply has_shape_cons in Hfr as (_ & Hlen & _).
  rewrite map_map, <- Hlen, <- (enumerate_from_fst 0 (Np.items fr)), map_map.
  apply map_ext. intros [d v]. apply Hg.
Qed.

Lemma scalar_records_paths :
  map rec_path (scalar_records path_of stamp frames)
  = flat_map (fun _ => map path_of (seq 0 D)) (seq 0 T).
Proof. now apply scalar_records_proj. Qed.

Lemma scalar_records_frame_index :
  map rec_frame_index (scalar_records path_of stamp frames)
  = flat_map (fun i => repeat (Some (Z.of_nat i)) D) (seq 0 T).
Proof.
  rewrite (scalar_records_proj _ (fun i _ => Some (Z.of_nat i))) by reflexivity.
  apply flat_map_ext. intros i. now rewrite map_const_repeat, length_seq.
Qed.

Lemma scalar_records_timestamp :
  map rec_timestamp (scalar_records path_of stamp frames)
  = flat_map (fun i => repeat (stamp i) D) (seq 0 T).
Proof.
  rewrite (scalar_records_proj _ (fun i _ => stamp i)) by reflexivity.
  apply flat_map_ext. intros i. now rewrite map_const_repeat, length_seq.
Qed.

End ScalarRecords.

(** ** The time axes along a trace *)

Lemma frame_index_values_app a b :
  frame_index_values (a ++ b) = frame_index_values a ++ frame_index_values b.
Proof.
  induction a as [|ev a IH]; [reflexivity|].
  destruct ev; simpl; auto.
  destruct (timeline =? "frame_index"); simpl; congruence.
Qed.

Lemma timestamp_values_app a b :
  timestamp_values (a ++ b) = timestamp_values a ++ timestamp_values b.
Proof.
  induction a as [|ev a IH]; [reflexivity|].
  destruct ev; simpl; auto.
  destruct (timeline =? "timestamp"); simpl; congruence.
Qed.

Lemma frame_index_values_logs l : frame_index_values (log_events l) = [].
Proof. induction l; simpl; auto. Qed.

Lemma timestamp_values_logs l : timestamp_values (log_events l) = [].
Proof. induction l; simpl; auto. Qed.

Lemma frame_index_values_frames hdr logs frames :
  (forall i, frame_index_values (hdr i) = [Z.of_nat i]) ->
  frame_index_values (flat_map (frame_events hdr logs) frames)
  = map (fun fr => Z.of_nat (fst fr)) frames.
Proof.
  intros Hh. induction frames as [|[i fr] frames IH]; [reflexivity|].
  cbn [flat_map map]. unfold frame_events at 1.
  now rewrite !frame_index_values_app, Hh, frame_index_values_logs, IH.
Qed.

Lemma frame_index_values_enumerate hdr logs (frames : list Np.ndarray) :
  (forall i, frame_index_values (hdr i) = [Z.of_nat i]) ->
  frame_index_values (flat_map (frame_events hdr logs) (Py.enumerate frames))
  = map Z.of_nat (seq 0 (length frames)).
Proof.
  intros Hh. rewrite frame_index_values_frames by exact Hh.
  now rewrite <- (enumerate_from_fst 0 frames), map_map.
Qed.

Lemma timestamp_values_frames hdr logs (stamp : nat -> list Py.num) frames :
  (forall i, timestamp_values (hdr i) = stamp i) ->
  timestamp_values (flat_map (frame_events hdr logs) frames)
  = flat_map (fun fr => stamp (fst fr)) frames.
Proof.
  intros Hh. induction frames as [|[i fr] frames IH]; [reflexivity|].
  cbn [flat_map map]. unfold frame_events at 1.
  now rewrite !timestamp_values_app, Hh, timestamp_values_logs, IH, app_nil_r.
Qed.

Lemma timestamp_values_actions (frames : list Np.ndarray) :
  timestamp_values
    (flat_map (frame_events action_hdr (scalar_logs action_path)) (Py.enumerate frames))
  = map running_total (seq 0 (length frames)).
Proof.
  rewrite (timestamp_values_frames _ _ (fun i => [running_total i])) by reflexivity.
  unfold Py.enumerate.
  rewrite <- (enumerate_from_fst 0 frames), map_map.
  induction (Py.enumerate_from 0 frames) as [|[i fr] l IH]; simpl; congruence.
Qed.

Lemma records_actions c logs frames :
  records c (flat_map (frame_events action_hdr logs) frames)
  = frame_records action_clock logs frames.
Proof.
  pose proof (records_frames action_hdr (fun _ i => action_clock i) logs
                (fun c i rest => records_action_hdr c i rest)
                (fun _ _ _ => eq_refl) c frames []) as E.
  rewrite !app_nil_r in E. exact E.
Qed.

Lemma records_channel c logs frames :
  records c (flat_map (frame_events channel_hdr logs) frames)
  = frame_records (channel_clock c) logs frames.
Proof.
  pose proof (records_frames channel_hdr channel_clock logs
                (fun c i rest => records_channel_hdr c i rest)
                (fun _ _ _ => eq_refl) c frames []) as E.
  rewrite !app_nil_r in E. exact E.
Qed.

Lemma has_shape_matrix T D a :
  Np.has_shape [T; D] a ->
  is_array a /\ Forall is_array (Np.items a) /\
  length (Np.items a) = T /\ Forall (Np.has_shape [D]) (Np.items a).
Proof.
  intros H. pose proof (has_shape_is_array _ _ _ H) as Ha.
  apply has_shape_cons in H as (_ & Hlen & Hrows).
  repeat split; auto.
  eapply Forall_impl; [|exact Hrows]. intros fr. apply has_shape_is_array.
Qed.

Lemma Forall_exists_Forall2 {A B : Type} (R : A -> B -> Prop) xs :
  Forall (fun x => exists y, R x y) xs -> exists ys, Forall2 R xs ys.
Proof.
  induction 1 as [|x xs [y Hy] _ [ys IH]].
  - exists []. constructor.
  - exists (y :: ys). now constructor.
Qed.

(** ** The dispatch on the channel name *)

Lemma log_observation_robot key value :
  Py.str_contains "robot_" key = true ->
  log_observation key value = log_robot key value.
Proof. intros H. unfold log_observation. now rewrite H. Qed.

Lemma log_observation_depth key value :
  Py.str_contains "robot_" key = false ->
  Py.str_contains "_depth" key = true ->
  log_observation key value = ret tt.
Proof. intros H1 H2. unfold log_observation. now rewrite H1, H2. Qed.

Lemma log_observation_camera key value :
  Py.str_contains "robot_" key = false ->
  Py.str_contains "_depth" key = false ->
  log_observation key value = log_camera key value.
Proof. intros H1 H2. unfold log_observation. now rewrite H1, H2. Qed.

(** ** The three loops on arrays of the expected shape *)

Lemma log_actions_matrix T D acts c :
  Np.has_shape [T; D] acts ->
  outcome (log_actions acts) = Returned tt /\
  records c (trace (log_actions acts))
  = scalar_records action_path (fun i => Some (running_total i)) (Np.items acts) /\
  frame_index_values (trace (log_actions acts)) = map Z.of_nat (seq 0 T) /\
  timestamp_values (trace (log_actions acts)) = map running_total (seq 0 T).
Proof.
  intros H. apply has_shape_matrix in H as (Ha & Hfr & Hlen & _).
  rewrite (log_actions_run _ Ha Hfr). cbn [trace outcome fst snd].
  split; [reflexivity|]. split; [|split].
  - rewrite records_actions. now apply frame_records_scalar.
  - now rewrite frame_index_values_enumerate, Hlen.
  - now rewrite timestamp_values_actions, Hlen.
Qed.

Lemma log_robot_matrix key T D value c :
  Np.has_shape [T; D] value ->
  outcome (log_robot key value) = Returned tt /\
  records c (trace (log_robot key value))
  = scalar_records (channel_path key) (fun _ => timestamp c) (Np.items value) /\
  frame_index_values (trace (log_robot key value)) = map Z.of_nat (seq 0 T) /\
  timestamp_values (trace (log_robot key value)) = [].
Proof.
  intros H. apply has_shape_matrix in H as (Ha & Hfr & Hlen & _).
  rewrite (log_robot_run _ _ Ha Hfr). cbn [trace outcome fst snd].
  split; [reflexivity|]. split; [|split].
  - rewrite records_channel. now apply frame_records_scalar.
  - now rewrite frame_index_values_enumerate, Hlen.
  - rewrite (timestamp_values_frames _ _ (fun _ => [])) by reflexivity.
    induction (Py.enumerate (Np.items value)); simpl; auto.
Qed.

Lemma log_camera_images key T H W sh value c :
  Np.has_shape (T :: H :: W :: sh) value ->
  exists images,
    outcome (log_camera key value) = Returned tt /\
    records c (trace (log_camera key value)) = image_records key (timestamp c) images /\
    frame_index_values (trace (log_camera key value)) = map Z.of_nat (seq 0 T) /\
    timestamp_values (trace (log_camera key value)) = [] /\
    Forall2 (fun frame small =>
               Np.getitem_stride2_2d frame = Some small /\
               Np.has_shape (ceil_half H :: ceil_half W :: sh) small /\
               forall r k, Np.getitem2 small r k = Np.getitem2 frame (2 * r) (2 * k))
            (Np.items value) images.
Proof.
  intros Hv. pose proof (has_shape_is_array _ _ _ Hv) as Ha.
  apply has_shape_cons in Hv as (_ & Hlen & Himgs).
  destruct (Forall_exists_Forall2 _ _
              (Forall_impl _ (getitem_stride2_2d_shape H W sh) Himgs))
    as [images HF].
  exists images.
  assert (Hsome : Forall (fun image => Np.getitem_stride2_2d image <> None) (Np.items value)).
  { clear -HF. induction HF as [|fr small frs smalls (E & _) _ IH]; constructor; auto.
    congruence. }
  rewrite (log_camera_run _ _ Ha Hsome). cbn [trace outcome fst snd].
  split; [reflexivity|]. split; [|split; [|split]].
  - rewrite records_channel. apply frame_records_image; [reflexivity|].
    eapply Forall2_impl; [|exact HF]. now intros fr small (E & _).
  - now rewrite frame_index_values_enumerate, Hlen.
  - rewrite (timestamp_values_frames _ _ (fun _ => [])) by reflexivity.
    induction (Py.enumerate (Np.items value)); simpl; auto.
  - exact HF.
Qed.

(** ** The observation loops never touch the timestamp axis *)

Lemma log_observation_no_seconds key value :
  Forall (fun ev => is_set_time_seconds ev = false) (trace (log_observation key value)).
Proof.
  unfold log_observation.
  destruct (Py.str_contains "robot_" key); [|destruct (Py.str_contains "_depth" key)].
  - unfold log_robot. apply trace_bind_Forall; [apply trace_iter_Forall|].
    intros frames. apply trace_for_each_Forall. intros [i fr]. unfold log_robot_frame.
    apply trace_bind_Forall; [now apply trace_emit_Forall|]. intros _.
    apply trace_bind_Forall; [apply trace_iter_Forall|]. intros vals.
    apply trace_for_each_Forall. intros [d v]. now apply trace_emit_Forall.
  - apply trace_ret_Forall.
  - unfold log_camera. apply trace_bind_Forall; [apply trace_iter_Forall|].
    intros frames. apply trace_for_each_Forall. intros [i fr]. unfold log_camera_frame.
    apply trace_bind_Forall; [now apply trace_emit_Forall|]. intros _.
    destruct (Np.getitem_stride2_2d fr);
      [now apply trace_emit_Forall|apply trace_raise_Forall].
Qed.

Lemma records_timestamp_stable c tr :
  Forall (fun ev => is_set_time_seconds ev = false) tr ->
  Forall (fun r => rec_timestamp r = timestamp c) (records c tr).
Proof.
  intros H. revert c. induction H as [|ev tr Hev _ IH]; intros c; [constructor|].
  destruct ev; try discriminate Hev; cbn [records]; try apply IH.
  - cbn [tick]. destruct (timeline =? "frame_index"); [|apply IH].
    exact (IH {| frame_index := Some sequence; timestamp := timestamp c |}).
  - constructor; [reflexivity|apply IH].
Qed.

Lemma image_records_frame_index key stamp images :
  map rec_frame_index (image_records key stamp images)
  = flat_map (fun i => repeat (Some (Z.of_nat i)) 1) (seq 0 (length images)).
Proof.
  unfold image_records, Py.enumerate.
  assert (G : forall k,
             map rec_frame_index
               (map (fun '(i, img) =>
                       {| rec_path := key; rec_entity := Image img;
                          rec_frame_index := Some (Z.of_nat i); rec_timestamp := stamp |})
                    (Py.enumerate_from k images))
             = flat_map (fun i => repeat (Some (Z.of_nat i)) 1) (seq k (length images))).
  { induction images as [|img images IH]; intros k; [reflexivity|].
    cbn [Py.enumerate_from map length seq flat_map repeat rec_frame_index app].
    now rewrite IH. }
  apply G.
Qed.

Lemma image_records_length key stamp images :
  length (image_records key stamp images) = length images.
Proof.
  unfold image_records, Py.enumerate. now rewrite length_map, enumerate_from_length.
Qed.

(** ** Claims about the streaming loops *)

Lemma running_total_frame_timestamp i : running_total i = frame_timestamp i.
Proof.
  destruct i as [|i]; [reflexivity|].
  induction i as [|i IH]; [reflexivity|].
  change (running_total (S (S i))) with (Py.add (running_total (S i)) dt).
  rewrite IH. reflexivity.
Qed.

Lemma frame_timestamp_float i :
  Py.to_float (frame_timestamp i) = float_running_total i.
Proof. now destruct i. Qed.

Lemma drift_within_spec bound n i :
  drift_within bound n i (float_running_total i) = true ->
  forall k, k < n ->
    PrimFloat.leb
      (PrimFloat.abs (PrimFloat.sub (float_running_total (i + k))
                        (nominal_timestamp (i + k))))
      bound = true.
Proof.
  revert i. induction n as [|n IH]; intros i H k Hk; [lia|].
  cbn [drift_within] in H. apply andb_prop in H as [H0 H1].
  destruct k as [|k].
  - now rewrite Nat.add_0_r.
  - rewrite Nat.add_succ_r. apply (IH (S i) H1 k). lia.
Qed.

(** C3, as stated, fails on the values of the timestamp axis from frame 6
    on: for seven frames the last timestamp is the running total 0.6, while
    6 * 0.1 is 0.6000000000000001 in binary64. *)
Lemma C3_timestamp_counterexample :
  Np.has_shape [7; 1] actions_7x1 /\
  nth_error (timestamp_values (trace (log_actions actions_7x1))) 6
  = Some (Py.Float 0.6%float) /\
  nominal_timestamp 6 = 0.6000000000000001%float /\
  PrimFloat.eqb 0.6%float (nominal_timestamp 6) = false /\
  ~ timestamps_are_products (trace (log_actions actions_7x1)).
Proof.
  split; [simpl; repeat constructor|].
  split; [reflexivity|]. split; [reflexivity|]. split; [reflexivity|].
  intros H. specialize (H 6 (Py.Float 0.6%float) eq_refl).
  vm_compute in H. discriminate H.
Qed.

(** C3, amended: for an actions array of shape T x D the action loop
    returns and leaves exactly T * D scalar records in the sink, the record
    of dimension d of frame i at path action/<d>, at frame index i and at
    the timestamp of frame i; the frame-index axis is set to 0 .. T-1 and
    the timestamp axis to the timestamps of the frames 0 .. T-1, each before
    the records of its frame.  The timestamp of a frame is a running total:
    the int 0 for frame 0, then the binary64 sum of the previous one and
    0.1.  It is the product i * 0.1 for the frames 0 to 5, differs from it
    at frame 6, and stays within 1e-9 of it for the first 5000 frames. *)
Theorem C3_action_stream (T D : nat) (acts : Np.ndarray) (c : Clock) :
  Np.has_shape [T; D] acts ->
  outcome (log_actions acts) = Returned tt /\
  records c (trace (log_actions acts))
  = scalar_records action_path (fun i => Some (frame_timestamp i)) (Np.items acts) /\
  length (records c (trace (log_actions acts))) = T * D /\
  map rec_path (records c (trace (log_actions acts)))
  = flat_map (fun _ => map action_path (seq 0 D)) (seq 0 T) /\
  map rec_frame_index (records c (trace (log_actions acts)))
  = flat_map (fun i => repeat (Some (Z.of_nat i)) D) (seq 0 T) /\
  map rec_timestamp (records c (trace (log_actions acts)))
  = flat_map (fun i => repeat (Some (frame_timestamp i)) D) (seq 0 T) /\
  frame_index_values (trace (log_actions acts)) = map Z.of_nat (seq 0 T) /\
  timestamp_values (trace (log_actions acts)) = map frame_timestamp (seq 0 T) /\
  (forall i, i <= 5 ->
     PrimFloat.eqb (Py.to_float (frame_timestamp i)) (nominal_timestamp i) = true) /\
  PrimFloat.eqb (Py.to_float (frame_timestamp 6)) (nominal_timestamp 6) = false /\
  (forall i, i < 5000 ->
     PrimFloat.leb
       (PrimFloat.abs (PrimFloat.sub (Py.to_float (frame_timestamp i))
                         (nominal_timestamp i)))
       1e-9%float = true).
Proof.
  intros H.
  destruct (log_actions_matrix T D acts c H) as (Ho & Hr & Hf & Ht).
  apply has_shape_matrix in H as (_ & _ & Hlen & HD).
  assert (Hr' : records c (trace (log_actions acts))
                = scalar_records action_path (fun i => Some (frame_timestamp i))
                    (Np.items acts)).
  { rewrite Hr. unfold scalar_records. apply flat_map_ext. intros [i fr].
    now rewrite running_total_frame_timestamp. }
  rewrite Hr'.
  split; [exact Ho|]. split; [reflexivity|].
  split; [now apply scalar_records_length|].
  split; [now apply scalar_records_paths|].
  split; [now apply scalar_records_frame_index|].
  split; [now apply (scalar_records_timestamp action_path
                       (fun i => Some (frame_timestamp i)))|].
  split; [exact Hf|].
  split.
  { rewrite Ht. apply map_ext. intros i. apply running_total_frame_timestamp. }
  split.
  { intros i Hi.
    do 6 (destruct i as [|i]; [reflexivity|]). lia. }
  split; [reflexivity|].
  intros i Hi. rewrite frame_timestamp_float.
  assert (G : drift_within 1e-9%float 5000 0 (float_running_total 0) = true)
    by (vm_compute; reflexivity).
  exact (drift_within_spec _ _ 0 G i Hi).
Qed.

Lemma C3_action_stream_witness :
  Np.has_shape [5; 2] actions_5x2 /\
  length (records clock0 (trace (log_actions actions_5x2))) = 10 /\
  frame_index_values (trace (log_actions actions_5x2)) = [0; 1; 2; 3; 4]%Z /\
  timestamp_values (trace (log_actions actions_5x2))
  = [Py.Int 0; Py.Float 0.1; Py.Float 0.2; Py.Float 0.30000000000000004;
     Py.Float 0.4]%float.
Proof.
  assert (H : Np.has_shape [5; 2] actions_5x2) by (simpl; repeat constructor).
  split; [exact H|].
  destruct (C3_action_stream 5 2 actions_5x2 clock0 H)
    as (_ & _ & Hn & _ & _ & _ & Hf & Ht & _).
  split; [exact Hn|split; [exact Hf|exact Ht]].
Defined.

(** The first running totals in binary64: the nominal 0.0, 0.1, 0.2, ...
    up to rounding of the accumulated sum. *)
Example running_total_first :
  map running_total (seq 0 5)
  = [Py.Int 0; Py.Float 0.1; Py.Float 0.2; Py.Float 0.30000000000000004; Py.Float 0.4]%float.
Proof. reflexivity. Qed.

Lemma running_total_S i :
  running_total (S i) = Py.Float (PrimFloat.add (Py.to_float (running_total i)) 0.1%float).
Proof. simpl. unfold Py.add, dt. now destruct (running_total i). Qed.

(** C4: a channel whose name contains robot_ and whose array has shape
    T x D is streamed to the end and leaves exactly T * D scalar records,
    one per (frame, dimension) pair: the record of dimension d of frame i is
    at path <key>/<d> and at frame index i. *)
Theorem C4_robot_channel (key : string) (T D : nat) (value : Np.ndarray) (c : Clock) :
  Py.str_contains "robot_" key = true ->
  Np.has_shape [T; D] value ->
  outcome (log_observation key value) = Returned tt /\
  records c (trace (log_observation key value))
  = scalar_records (channel_path key) (fun _ => timestamp c) (Np.items value) /\
  length (records c (trace (log_observation key value))) = T * D /\
  map rec_path (records c (trace (log_observation key value)))
  = flat_map (fun _ => map (channel_path key) (seq 0 D)) (seq 0 T) /\
  map rec_frame_index (records c (trace (log_observation key value)))
  = flat_map (fun i => repeat (Some (Z.of_nat i)) D) (seq 0 T) /\
  frame_index_values (trace (log_observation key value)) = map Z.of_nat (seq 0 T).
Proof.
  intros Hk H. rewrite (log_observation_robot _ _ Hk).
  destruct (log_robot_matrix key T D value c H) as (Ho & Hr & Hf & _).
  apply has_shape_matrix in H as (_ & _ & Hlen & HD).
  rewrite Hr. repeat split; auto.
  - now apply scalar_records_length.
  - now apply scalar_records_paths.
  - now apply scalar_records_frame_index.
Qed.

Lemma C4_robot_channel_witness :
  length (records clock0 (trace (log_observation "robot_state" actions_5x2))) = 10 /\
  frame_index_values (trace (log_observation "robot_state" actions_5x2))
  = [0; 1; 2; 3; 4]%Z.
Proof.
  assert (Hk : Py.str_contains "robot_" "robot_state" = true) by reflexivity.
  assert (H : Np.has_shape [5; 2] actions_5x2) by (simpl; repeat constructor).
  destruct (C4_robot_channel "robot_state" 5 2 actions_5x2 clock0 Hk H)
    as (_ & _ & Hn & _ & _ & Hf).
  split; [exact Hn|exact Hf].
Defined.

(** C5: a channel whose name contains neither robot_ nor _depth, with T
    frames of shape H x W x C, is streamed to the end and leaves exactly T
    image records at path <key>, the record of frame i at frame index i;
    its image is [frame[::2, ::2]], of shape ceil(H/2) x ceil(W/2) x C, whose
    entry (r, k) is the entry (2r, 2k) of the frame. *)
Theorem C5_image_channel (key : string) (T H W C : nat) (value : Np.ndarray) (c : Clock) :
  Py.str_contains "robot_" key = false ->
  Py.str_contains "_depth" key = false ->
  Np.has_shape [T; H; W; C] value ->
  exists images,
    outcome (log_observation key value) = Returned tt /\
    records c (trace (log_observation key value))
    = image_records key (timestamp c) images /\
    length (records c (trace (log_observation key value))) = T /\
    length images = T /\
    Forall2 (fun frame small =>
               Np.getitem_stride2_2d frame = Some small /\
               Np.has_shape [ceil_half H; ceil_half W; C] small /\
               forall r k, Np.getitem2 small r k = Np.getitem2 frame (2 * r) (2 * k))
            (Np.items value) images /\
    H <= 2 * ceil_half H < H + 2 /\ W <= 2 * ceil_half W < W + 2.
Proof.
  intros Hr Hd Hv. rewrite (log_observation_camera _ _ Hr Hd).
  destruct (log_camera_images key T H W [C] value c Hv)
    as (images & Ho & Hrec & _ & _ & HF).
  assert (Hlen : length images = T).
  { rewrite <- (Forall2_length HF). now apply has_shape_cons in Hv. }
  exists images. rewrite Hrec, image_records_length.
  repeat split; auto; apply ceil_half_spec.
Qed.

Lemma C5_image_channel_witness :
  exists images,
    records clock0 (trace (log_observation "camera_front" frames_2x3x3x1))
    = image_records "camera_front" None images /\
    length images = 2 /\
    Forall (Np.has_shape [2; 2; 1]) images.
Proof.
  assert (Hr : Py.str_contains "robot_" "camera_front" = false) by reflexivity.
  assert (Hd : Py.str_contains "_depth" "camera_front" = false) by reflexivity.
  assert (Hv : Np.has_shape [2; 3; 3; 1] frames_2x3x3x1) by (simpl; repeat constructor).
  destruct (C5_image_channel "camera_front" 2 3 3 1 frames_2x3x3x1 clock0 Hr Hd Hv)
    as (images & _ & Hrec & _ & Hlen & HF & _).
  exists images. split; [exact Hrec|]. split; [exact Hlen|].
  clear -HF. induction HF as [|fr small frs smalls (_ & Hs & _) _ IH]; constructor; auto.
Defined.

(** The sliced frames of the example, entry by entry. *)
Example camera_front_trace :
  log_observation "camera_front" frames_2x3x3x1
  = ([RrSetTimeSequence "frame_index" 0;
      RrLog "camera_front" (Image (Np.Array [matrix [[11]; [13]]; matrix [[31]; [33]]]%Z));
      RrSetTimeSequence "frame_index" 1;
      RrLog "camera_front" (Image (Np.Array [matrix [[41]; [43]]; matrix [[61]; [63]]]%Z))],
     Returned tt).
Proof. reflexivity. Qed.

(** C2, as stated, fails on a name such as robot_arm_depth: it contains
    _depth, yet the channel is streamed, with an update of the frame-index
    axis and two records. *)
Lemma C2_depth_counterexample :
  Py.str_contains "_depth" "robot_arm_depth" = true /\
  trace (log_observation "robot_arm_depth" (matrix [[1; 2]]%Z))
  = [RrSetTimeSequence "frame_index" 0;
     RrLog "robot_arm_depth/0" (Scalar (Np.Item (Np.I 1)));
     RrLog "robot_arm_depth/1" (Scalar (Np.Item (Np.I 2)))] /\
  length (filter is_log
            (trace (log_observation "robot_arm_depth" (matrix [[1; 2]]%Z)))) = 2 /\
  length (filter is_time_update
            (trace (log_observation "robot_arm_depth" (matrix [[1; 2]]%Z)))) = 1.
Proof. repeat split. Qed.

(** C2, amended: a channel whose name contains _depth and does not contain
    robot_ is skipped whatever its array holds: no event at all, hence no
    record and no update of a time axis, and the sink's clock is as
    before. *)
Theorem C2_depth_channel_skipped (key : string) (value : Np.ndarray) (c : Clock) :
  Py.str_contains "_depth" key = true ->
  Py.str_contains "robot_" key = false ->
  log_observation key value = ([], Returned tt) /\
  filter is_log (trace (log_observation key value)) = [] /\
  filter is_time_update (trace (log_observation key value)) = [] /\
  records c (trace (log_observation key value)) = [] /\
  final_clock c (trace (log_observation key value)) = c.
Proof.
  intros Hd Hr. rewrite (log_observation_depth _ _ Hr Hd). repeat split.
Qed.

Lemma C2_depth_channel_skipped_witness :
  log_observation "camera_front_depth" frames_2x3x3x1 = ([], Returned tt).
Proof.
  exact (proj1 (C2_depth_channel_skipped "camera_front_depth" frames_2x3x3x1 clock0
                  eq_refl eq_refl)).
Defined.

(** C10: a channel whose name contains both robot_ and _depth takes the
    robot branch, because the robot_ test comes first: its T x D values are
    logged as T * D scalar records at <key>/<d>; the skip applies to the
    names that contain _depth and not robot_. *)
Theorem C10_robot_before_depth (key : string) (T D : nat) (value : Np.ndarray) (c : Clock) :
  Py.str_contains "robot_" key = true ->
  Py.str_contains "_depth" key = true ->
  Np.has_shape [T; D] value ->
  log_observation key value = log_robot key value /\
  outcome (log_observation key value) = Returned tt /\
  records c (trace (log_observation key value))
  = scalar_records (channel_path key) (fun _ => timestamp c) (Np.items value) /\
  length (records c (trace (log_observation key value))) = T * D /\
  (forall key' value',
      Py.str_contains "_depth" key' = true ->
      (log_observation key' value' = ([], Returned tt)
       \/ Py.str_contains "robot_" key' = true
          /\ log_observation key' value' = log_robot key' value')).
Proof.
  intros Hk _ H. split; [now apply log_observation_robot|].
  rewrite (log_observation_robot _ _ Hk).
  destruct (log_robot_matrix key T D value c H) as (Ho & Hr & _).
  apply has_shape_matrix in H as (_ & _ & Hlen & HD).
  rewrite Hr. repeat split; auto.
  - now apply scalar_records_length.
  - intros key' value' Hd. destruct (Py.str_contains "robot_" key') eqn:E.
    + right. split; [reflexivity|now apply log_observation_robot].
    + left. now apply log_observation_depth.
Qed.

Lemma C10_robot_before_depth_witness :
  records clock0 (trace (log_observation "robot_arm_depth" (matrix [[1; 2]]%Z)))
  = scalar_records (channel_path "robot_arm_depth") (fun _ => None)
      [ints [1; 2]%Z] /\
  length (records clock0 (trace (log_observation "robot_arm_depth" (matrix [[1; 2]]%Z))))
  = 1 * 2.
Proof.
  assert (H : Np.has_shape [1; 2] (matrix [[1; 2]]%Z)) by (simpl; repeat constructor).
  destruct (C10_robot_before_depth "robot_arm_depth" 1 2 (matrix [[1; 2]]%Z) clock0
              eq_refl eq_refl H) as (_ & _ & Hr & Hn & _).
  split; [exact Hr|exact Hn].
Defined.

(** ** The timeline invariant *)

Lemma final_clock_timestamp_stable c tr :
  Forall (fun ev => is_set_time_seconds ev = false) tr ->
  timestamp (final_clock c tr) = timestamp c.
Proof.
  intros H. revert c. unfold final_clock.
  induction H as [|ev tr Hev _ IH]; intros c; [reflexivity|].
  cbn [fold_left]. rewrite IH.
  destruct ev; try discriminate Hev; try reflexivity.
  cbn [tick]. now destruct (timeline =? "frame_index").
Qed.

(** C6, as stated, fails on a robot channel with two dimensions: both
    records of frame 0 are at frame index 0, so the index does not grow by
    one per record. *)
Lemma C6_timeline_counterexample :
  map rec_frame_index
    (records clock0 (trace (run_loop (ChannelLoop "robot_q" (matrix [[1; 2]]%Z)))))
  = [Some 0%Z; Some 0%Z] /\
  ~ frame_index_per_record clock0 (ChannelLoop "robot_q" (matrix [[1; 2]]%Z)).
Proof.
  split; [reflexivity|]. unfold frame_index_per_record.
  intros H. vm_compute in H. discriminate H.
Qed.

(** C6, amended: in each loop over T frames with n records per frame (the
    action loop and a robot channel of shape T x n; a camera channel of T
    frames, n = 1; no frame for a depth channel) the frame-index axis is set
    to 0, 1, ..., T-1, once per frame, and the n records of frame i are at
    frame index i.  The timestamp axis is set in the action loop only, to
    the running totals; an observation loop holds no update of it, so its
    records are at the timestamp in force when the loop started and the
    timestamp is the same when it ends. *)
Theorem C6_timeline (T n : nat) (l : Loop) (c : Clock) :
  loop_frames T n l ->
  frame_index_values (trace (run_loop l)) = map Z.of_nat (seq 0 T) /\
  map rec_frame_index (records c (trace (run_loop l)))
  = flat_map (fun i => repeat (Some (Z.of_nat i)) n) (seq 0 T) /\
  match l with
  | ActionLoop _ =>
      timestamp_values (trace (run_loop l)) = map running_total (seq 0 T) /\
      map rec_timestamp (records c (trace (run_loop l)))
      = flat_map (fun i => repeat (Some (running_total i)) n) (seq 0 T)
  | ChannelLoop _ _ =>
      Forall (fun ev => is_set_time_seconds ev = false) (trace (run_loop l)) /\
      Forall (fun r => rec_timestamp r = timestamp c) (records c (trace (run_loop l))) /\
      timestamp (final_clock c (trace (run_loop l))) = timestamp c
  end.
Proof.
  destruct l as [acts|key value]; cbn [loop_frames run_loop].
  - intros H. destruct (log_actions_matrix T n acts c H) as (_ & Hr & Hf & Ht).
    apply has_shape_matrix in H as (_ & _ & Hlen & HD).
    rewrite Hr. repeat split; auto.
    + now apply scalar_records_frame_index.
    + now apply (scalar_records_timestamp action_path (fun i => Some (running_total i))).
  - intros H.
    pose proof (log_observation_no_seconds key value) as Hs.
    split; [|split; [|split; [exact Hs|split]]];
      [| |now apply records_timestamp_stable|now apply final_clock_timestamp_stable].
    + unfold log_observation.
      destruct (Py.str_contains "robot_" key); [|destruct (Py.str_contains "_depth" key)].
      * now destruct (log_robot_matrix key T n value c H) as (_ & _ & Hf & _).
      * now subst T.
      * destruct H as (_ & Hh & W & C & H).
        now destruct (log_camera_images key T Hh W [C] value c H)
          as (images & _ & _ & Hf & _).
    + unfold log_observation.
      destruct (Py.str_contains "robot_" key); [|destruct (Py.str_contains "_depth" key)].
      * destruct (log_robot_matrix key T n value c H) as (_ & Hr & _).
        apply has_shape_matrix in H as (_ & _ & Hlen & HD).
        rewrite Hr. now apply scalar_records_frame_index.
      * now subst T.
      * destruct H as (-> & Hh & W & C & H).
        destruct (log_camera_images key T Hh W [C] value c H)
          as (images & _ & Hr & _ & _ & HF).
        rewrite Hr, image_records_frame_index, <- (Forall2_length HF).
        now apply has_shape_cons in H as (_ & -> & _).
Qed.

Lemma C6_timeline_witness :
  frame_index_values (trace (run_loop (ChannelLoop "robot_state" actions_5x2)))
  = [0; 1; 2; 3; 4]%Z /\
  map rec_frame_index
    (records clock0 (trace (run_loop (ChannelLoop "robot_state" actions_5x2))))
  = flat_map (fun i => repeat (Some (Z.of_nat i)) 2) (seq 0 5).
Proof.
  assert (H : loop_frames 5 2 (ChannelLoop "robot_state" actions_5x2))
    by (simpl; repeat constructor).
  destruct (C6_timeline 5 2 (ChannelLoop "robot_state" actions_5x2) clock0 H)
    as (Hf & Hr & _).
  split; [exact Hf|exact Hr].
Defined.

(** ** The whole script *)

Ltac trace_forall :=
  repeat first
    [ apply trace_ret_Forall
    | apply trace_raise_Forall
    | apply trace_iter_Forall
    | apply trace_emit_Forall; reflexivity
    | apply trace_for_each_Forall; intros [? ?]
    | apply trace_for_fold_Forall; intros [? ?] ?
    | apply trace_bind_Forall; [|intros ?] ].

Lemma npz_getitem_trace npz key : trace (npz_getitem npz key) = [].
Proof.
  induction npz as [|[k v] npz IH]; simpl; [reflexivity|].
  now destruct (k =? key).
Qed.

Lemma stream_episode_events w path ep :
  Forall (fun ev => is_stream_event ev = true) (trace (stream_episode w path ep)).
Proof.
  unfold stream_episode, np_load, log_actions.
  trace_forall.
  - destruct (npz_files w _); trace_forall.
  - rewrite npz_getitem_trace. constructor.
  - destruct (npz_files w _); trace_forall.
  - unfold log_observation, log_robot, log_camera.
    destruct (Py.str_contains "robot_" _); [|destruct (Py.str_contains "_depth" _)];
      trace_forall.
    destruct (Np.getitem_stride2_2d _); trace_forall.
Qed.

Lemma wait_loop_events fuel sigint :
  Forall (fun ev => is_finalize_event ev = true) (trace (wait_loop fuel sigint)).
Proof.
  revert sigint. induction fuel as [|fuel IH]; intros sigint; [constructor|].
  cbn [wait_loop]. apply trace_bind_Forall; [now apply trace_emit_Forall|].
  intros _. destruct sigint as [[|k]|]; try apply IH.
  now apply trace_emit_Forall.
Qed.

Lemma serve_until_interrupt_events w :
  Forall (fun ev => is_finalize_event ev = true) (trace (serve_until_interrupt w)).
Proof.
  unfold serve_until_interrupt. destruct (sigint_after w); apply wait_loop_events.
Qed.

Lemma finalize_events w ep mode save od :
  Forall (fun ev => is_finalize_event ev = true) (trace (finalize w ep mode save od)).
Proof.
  unfold finalize.
  destruct ((mode =? "local") && save); [|destruct (mode =? "distant")].
  - destruct od as [d|]; trace_forall.
  - apply trace_bind_Forall; [now apply trace_emit_Forall|]. intros _.
    apply trace_bind_Forall; [apply serve_until_interrupt_events|]. intros _.
    apply trace_ret_Forall.
  - apply trace_ret_Forall.
Qed.

Lemma finalize_local_save w ep d :
  finalize w ep "local" true (Some d)
  = ([Mkdir d true true], Raised (Py.NameError "repo_id")).
Proof. reflexivity. Qed.

Lemma finalize_local_nosave w ep od :
  finalize w ep "local" false od = ([], Returned None).
Proof. reflexivity. Qed.

Lemma visualize_dataset_valid w path ep mode wp ws save od :
  Py.str_in mode ["local"; "distant"] = true ->
  (save = true -> od <> None) ->
  visualize_dataset w path ep mode wp ws save od
  = bind (prelude ep mode wp ws save, Returned tt)
         (fun _ => stream_episode w path ep ;; finalize w ep mode save od).
Proof.
  intros Hm Hod. unfold visualize_dataset, prelude. rewrite Hm.
  assert (E : (if save
               then match od with
                    | Some _ => ret tt
                    | None => raise (Py.AssertionError assert_output_dir_msg)
                    end
               else ret tt) = ret tt).
  { destruct save; [|reflexivity]. destruct od; [reflexivity|].
    now destruct Hod. }
  rewrite E. cbn [negb]. rewrite !bind_ret, !bind_emit.
  destruct (mode =? "distant"); [rewrite bind_emit|rewrite bind_ret];
    cbn [bind trace outcome fst snd app];
    now destruct (stream_episode w path ep ;; finalize w ep mode save od).
Qed.

Lemma visualize_dataset_streamed w path ep mode wp ws save od :
  Py.str_in mode ["local"; "distant"] = true ->
  (save = true -> od <> None) ->
  outcome (stream_episode w path ep) = Returned tt ->
  visualize_dataset w path ep mode wp ws save od
  = (prelude ep mode wp ws save ++ trace (stream_episode w path ep)
       ++ trace (finalize w ep mode save od),
     outcome (finalize w ep mode save od)).
Proof.
  intros Hm Hod Hs. rewrite (visualize_dataset_valid _ _ _ _ _ _ _ _ Hm Hod).
  rewrite (bind_returned _ _ _ _ eq_refl). f_equal.
  - f_equal. rewrite (run_eta (stream_episode w path ep)), Hs.
    now rewrite (bind_returned _ _ _ _ eq_refl).
  - rewrite (run_eta (stream_episode w path ep)), Hs.
    now rewrite (bind_returned _ _ _ _ eq_refl).
Qed.

Lemma visualize_dataset_invalid_mode w path ep mode wp ws save od :
  Py.str_in mode ["local"; "distant"] = false ->
  visualize_dataset w path ep mode wp ws save od
  = match save, od with
    | true, None => ([], Raised (Py.AssertionError assert_output_dir_msg))
    | _, _ => ([LoggingInfo "Starting Rerun"], Raised (Py.ValueError mode))
    end.
Proof.
  intros Hm. unfold visualize_dataset. rewrite Hm.
  destruct save; [destruct od|]; reflexivity.
Qed.

Lemma prelude_no_save ep mode wp ws save :
  Forall (fun ev => is_save ev = false) (prelude ep mode wp ws save).
Proof.
  unfold prelude. destruct (mode =? "distant"); repeat constructor.
Qed.

(** With [mode = "local"], [save] set and an output directory, the script
    never returns a value and never calls [rr.save]: once the episode was
    streamed it creates the directory and stops on the unbound name
    [repo_id]. *)
Lemma local_save_never_saves w path ep wp ws d :
  (forall p, outcome (visualize_dataset w path ep "local" wp ws true (Some d))
             <> Returned p) /\
  Forall (fun ev => is_save ev = false)
         (trace (visualize_dataset w path ep "local" wp ws true (Some d))) /\
  (outcome (stream_episode w path ep) = Returned tt ->
   visualize_dataset w path ep "local" wp ws true (Some d)
   = (prelude ep "local" wp ws true ++ trace (stream_episode w path ep)
        ++ [Mkdir d true true],
      Raised (Py.NameError "repo_id"))).
Proof.
  assert (Hod : true = true -> Some d <> None) by (intros _; discriminate).
  rewrite (visualize_dataset_valid w path ep "local" wp ws true (Some d) eq_refl Hod).
  pose proof (stream_episode_events w path ep) as Hev.
  rewrite (bind_returned _ _ _ _ eq_refl).
  rewrite finalize_local_save.
  destruct (stream_episode w path ep) as [tr [[]|e|]]; cbn [trace outcome fst snd bind] in *.
  - split; [discriminate|]. split; [|reflexivity].
    apply Forall_app. split; [apply prelude_no_save|].
    apply Forall_app. split; [|repeat constructor].
    eapply Forall_impl; [|exact Hev]. now intros [].
  - split; [discriminate|]. split; [|discriminate].
    apply Forall_app. split; [apply prelude_no_save|].
    eapply Forall_impl; [|exact Hev]. now intros [].
  - split; [discriminate|]. split; [|discriminate].
    apply Forall_app. split; [apply prelude_no_save|].
    eapply Forall_impl; [|exact Hev]. now intros [].
Qed.

(** C1: the call of the second end-to-end scenario (path /data/ep, episode
    3, mode local, save, output directory /tmp/out).  The episode is
    streamed and the directory is created; then the script raises
    NameError on [repo_id]: nothing is saved and no path is returned. *)
Theorem C1_save_raises_NameError :
  outcome (visualize_dataset world_ep3 ["/"; "data"; "ep"] 3 "local" 9090 9087 true
             (Some ["/"; "tmp"; "out"]))
  = Raised (Py.NameError "repo_id") /\
  filter is_save
    (trace (visualize_dataset world_ep3 ["/"; "data"; "ep"] 3 "local" 9090 9087 true
              (Some ["/"; "tmp"; "out"])))
  = [] /\
  last (trace (visualize_dataset world_ep3 ["/"; "data"; "ep"] 3 "local" 9090 9087 true
                 (Some ["/"; "tmp"; "out"])))
       GcCollect
  = Mkdir ["/"; "tmp"; "out"] true true /\
  lookup_name "repo_id" module_globals = None.
Proof. repeat split. Qed.

(** C7, as stated, fails when [save] is set without an output directory:
    the assertion comes first and the error is the precondition error, not
    the invalid-argument one. *)
Lemma C7_invalid_mode_counterexample :
  Py.str_in "online" ["local"; "distant"] = false /\
  visualize_dataset world_ep3 ["/"; "data"; "ep"] 3 "online" 9090 9087 true None
  = ([], Raised (Py.AssertionError assert_output_dir_msg)) /\
  outcome (visualize_dataset world_ep3 ["/"; "data"; "ep"] 3 "online" 9090 9087 true None)
  <> Raised (Py.ValueError "online").
Proof. repeat split. discriminate. Qed.

(** C7, amended: for a mode other than local and distant the script fails
    before the sink is initialised, an archive is loaded or anything is
    served; its only event, if any, is the first [logging.info].  The error
    is ValueError carrying the mode, unless [save] is set without an output
    directory: then it is the AssertionError of the first statement. *)
Theorem C7_invalid_mode (w : World) (path : Py.Path) (ep : Z) (mode : string)
    (wp ws : Z) (save : bool) (od : option Py.Path) :
  Py.str_in mode ["local"; "distant"] = false ->
  Forall (fun ev => is_io ev = false)
         (trace (visualize_dataset w path ep mode wp ws save od)) /\
  (save = true /\ od = None ->
   visualize_dataset w path ep mode wp ws save od
   = ([], Raised (Py.AssertionError assert_output_dir_msg))) /\
  (~ (save = true /\ od = None) ->
   visualize_dataset w path ep mode wp ws save od
   = ([LoggingInfo "Starting Rerun"], Raised (Py.ValueError mode))).
Proof.
  intros Hm. rewrite (visualize_dataset_invalid_mode _ _ _ _ _ _ _ _ Hm).
  destruct save; [destruct od|]; (split; [repeat constructor|split]);
    intros H; try reflexivity; try (destruct H; discriminate).
  destruct H. now split.
Qed.

Lemma C7_invalid_mode_witness :
  visualize_dataset world_ep3 ["/"; "data"; "ep"] 3 "online" 9090 9087 false None
  = ([LoggingInfo "Starting Rerun"], Raised (Py.ValueError "online")).
Proof.
  apply (C7_invalid_mode world_ep3 ["/"; "data"; "ep"] 3 "online" 9090 9087 false None
           eq_refl).
  intros [H _]. discriminate H.
Defined.

(** C8: with [save] set and no output directory the script raises the
    AssertionError of its first statement, whose message names the output
    directory and its flag; nothing was done before: the trace is empty. *)
Theorem C8_save_without_output_dir (w : World) (path : Py.Path) (ep : Z)
    (mode : string) (wp ws : Z) :
  visualize_dataset w path ep mode wp ws true None
  = ([], Raised (Py.AssertionError assert_output_dir_msg)) /\
  Py.str_contains "output directory" assert_output_dir_msg = true /\
  Py.str_contains "--output-dir" assert_output_dir_msg = true.
Proof. repeat split. Qed.

Lemma spawn_only_local_nosave w path ep mode wp ws save od :
  Forall (fun ev => spawns_viewer ev = true -> mode = "local" /\ save = false)
         (trace (visualize_dataset w path ep mode wp ws save od)).
Proof.
  assert (Hi : spawns_viewer
                 (RrInit ("episode_" ++ Py.str_of_int ep)
                    ((mode =? "local") && negb save)) = true ->
               mode = "local" /\ save = false).
  { cbn [spawns_viewer]. intros H. apply andb_prop in H as [H1 H2].
    apply String.eqb_eq in H1. now destruct save. }
  unfold visualize_dataset.
  apply trace_bind_Forall; [destruct save; [destruct od|]; constructor|intros _].
  apply trace_bind_Forall;
    [apply trace_emit_Forall; intros H; discriminate H|intros _].
  apply trace_bind_Forall;
    [destruct (negb (Py.str_in mode ["local"; "distant"])); constructor|intros _].
  apply trace_bind_Forall; [apply trace_emit_Forall; exact Hi|intros _].
  apply trace_bind_Forall;
    [apply trace_emit_Forall; intros H; discriminate H|intros _].
  apply trace_bind_Forall.
  { destruct (mode =? "distant"); [|constructor].
    apply trace_emit_Forall. intros H. discriminate H. }
  intros _. apply trace_bind_Forall.
  - eapply Forall_impl; [|apply stream_episode_events].
    intros [] He H; discriminate.
  - intros _. eapply Forall_impl; [|apply finalize_events].
    intros [] He H; discriminate.
Qed.

(** C9: with mode local and [save] unset, [rr.init] is called with
    [spawn] set, and once the episode was streamed the script returns None
    with no further event.  In every call, whatever the mode and [save], an
    event that spawns a viewer implies mode local and [save] unset. *)
Theorem C9_local_viewer (w : World) (path : Py.Path) (ep wp ws : Z)
    (od : option Py.Path) :
  outcome (stream_episode w path ep) = Returned tt ->
  visualize_dataset w path ep "local" wp ws false od
  = ([LoggingInfo "Starting Rerun";
      RrInit ("episode_" ++ Py.str_of_int ep) true;
      GcCollect] ++ trace (stream_episode w path ep),
     Returned None) /\
  (forall mode save od',
      Forall (fun ev => spawns_viewer ev = true -> mode = "local" /\ save = false)
             (trace (visualize_dataset w path ep mode wp ws save od'))).
Proof.
  intros Hs. split.
  - assert (Hod : false = true -> od <> None) by discriminate.
    rewrite (visualize_dataset_streamed w path ep "local" wp ws false od eq_refl Hod Hs).
    rewrite finalize_local_nosave. cbn [trace outcome fst snd prelude].
    now rewrite app_nil_r.
  - intros mode save od'. apply spawn_only_local_nosave.
Qed.

Lemma C9_local_viewer_witness :
  outcome (visualize_dataset world_ep3 ["/"; "data"; "ep"] 3 "local" 9090 9087 false None)
  = Returned None /\
  firstn 3 (trace (visualize_dataset world_ep3 ["/"; "data"; "ep"] 3 "local" 9090 9087
                     false None))
  = [LoggingInfo "Starting Rerun"; RrInit "episode_3" true; GcCollect].
Proof.
  destruct (C9_local_viewer world_ep3 ["/"; "data"; "ep"] 3 9090 9087 None eq_refl)
    as [E _].
  rewrite E. split; reflexivity.
Defined.

(** ** Further properties of the script *)

Lemma records_app c a b :
  records c (a ++ b) = records c a ++ records (final_clock c a) b.
Proof.
  revert c. induction a as [|ev a IH]; intros c; [reflexivity|].
  destruct ev; cbn [app records final_clock fold_left]; try apply IH.
  cbn [tick]. now rewrite IH.
Qed.

Lemma records_no_log c tr :
  Forall (fun ev => is_log ev = false) tr -> records c tr = [].
Proof.
  intros H. revert c. induction H as [|ev tr Hev _ IH]; intros c; [reflexivity|].
  destruct ev; try discriminate Hev; cbn [records]; apply IH.
Qed.

Lemma for_each_repeat_emit ev k :
  for_each (repeat tt k) (fun _ => emit ev) = (repeat ev k, Returned tt).
Proof.
  induction k as [|k IH]; [reflexivity|].
  cbn [repeat]. now rewrite for_each_cons, bind_emit, IH.
Qed.

Lemma bind_trace_outcome {A B : Type} (m : Run A) (k : A -> Run B) :
  bind m k
  = match outcome m with
    | Returned a => (trace m ++ trace (k a), outcome (k a))
    | Raised e => (trace m, Raised e)
    | Blocked => (trace m, Blocked)
    end.
Proof.
  destruct m as [tr [a|e|]]; cbn [trace outcome fst snd bind]; try reflexivity.
  now destruct (k a).
Qed.

(** Every event of a run of the script is one of: the first
    [logging.info], [rr.init], [gc.collect], [rr.serve] (in distant mode),
    an event of the streaming part, an event of the finalization. *)
Lemma visualize_dataset_events (P : Event -> Prop) w path ep mode wp ws save od :
  P (LoggingInfo "Starting Rerun") ->
  P (RrInit ("episode_" ++ Py.str_of_int ep) ((mode =? "local") && negb save)) ->
  P GcCollect ->
  ((mode =? "distant") = true -> P (RrServe false wp ws)) ->
  Forall P (trace (stream_episode w path ep)) ->
  Forall P (trace (finalize w ep mode save od)) ->
  Forall P (trace (visualize_dataset w path ep mode wp ws save od)).
Proof.
  intros H1 H2 H3 H4 H5 H6. unfold visualize_dataset.
  apply trace_bind_Forall; [destruct save; [destruct od|]; constructor|intros _].
  apply trace_bind_Forall; [now apply trace_emit_Forall|intros _].
  apply trace_bind_Forall;
    [destruct (negb (Py.str_in mode ["local"; "distant"])); constructor|intros _].
  apply trace_bind_Forall; [now apply trace_emit_Forall|intros _].
  apply trace_bind_Forall; [now apply trace_emit_Forall|intros _].
  apply trace_bind_Forall.
  { destruct (mode =? "distant"); [|constructor]. apply trace_emit_Forall. now apply H4. }
  intros _. apply trace_bind_Forall; [exact H5|intros _; exact H6].
Qed.

Lemma wait_loop_interrupted n :
  wait_loop (S n) (Some n)
  = (repeat (TimeSleep 1) (S n) ++ [Print "Ctrl-C received. Exiting."], Returned tt).
Proof.
  induction n as [|n IH]; [reflexivity|].
  change (wait_loop (S (S n)) (Some (S n)))
    with (emit (TimeSleep 1) ;; wait_loop (S n) (Some n)).
  now rewrite bind_emit, IH.
Qed.

Lemma wait_loop_never_interrupted fuel :
  wait_loop fuel None = (repeat (TimeSleep 1) fuel, Blocked).
Proof.
  induction fuel as [|fuel IH]; [reflexivity|].
  change (wait_loop (S fuel) None) with (emit (TimeSleep 1) ;; wait_loop fuel None).
  now rewrite bind_emit, IH.
Qed.

Lemma serve_until_interrupt_some w n :
  sigint_after w = Some n ->
  serve_until_interrupt w
  = (repeat (TimeSleep 1) (S n) ++ [Print "Ctrl-C received. Exiting."], Returned tt).
Proof.
  intros H. unfold serve_until_interrupt. rewrite H. apply wait_loop_interrupted.
Qed.

Lemma finalize_distant w ep save od :
  finalize w ep "distant" save od
  = match sigint_after w with
    | Some n =>
        ([Print "Data sent; press Ctrl-C to terminate the websocket connection."]
           ++ repeat (TimeSleep 1) (S n) ++ [Print "Ctrl-C received. Exiting."],
         Returned None)
    | None =>
        ([Print "Data sent; press Ctrl-C to terminate the websocket connection."]
           ++ repeat (TimeSleep 1) (observed_sleeps w),
         Blocked)
    end.
Proof.
  unfold finalize. change (("distant" =? "local") && save) with false.
  change ("distant" =? "distant") with true. cbv iota.
  rewrite bind_emit.
  destruct (sigint_after w) as [n|] eqn:E.
  - rewrite (bind_returned _ _ _ _ (serve_until_interrupt_some w n E)).
    cbn [trace outcome fst snd ret]. now rewrite app_nil_r.
  - unfold serve_until_interrupt. rewrite E, wait_loop_never_interrupted.
    reflexivity.
Qed.

Lemma visualize_dataset_stream_failed w path ep mode wp ws save od :
  Py.str_in mode ["local"; "distant"] = true ->
  (save = true -> od <> None) ->
  (forall u, outcome (stream_episode w path ep) <> Returned u) ->
  visualize_dataset w path ep mode wp ws save od
  = (prelude ep mode wp ws save ++ trace (stream_episode w path ep),
     match outcome (stream_episode w path ep) with
     | Raised e => Raised e
     | _ => Blocked
     end).
Proof.
  intros Hm Hod Hs. rewrite (visualize_dataset_valid _ _ _ _ _ _ _ _ Hm Hod).
  rewrite (bind_returned _ _ _ _ eq_refl). rewrite bind_trace_outcome.
  destruct (outcome (stream_episode w path ep)) as [u|e|]; [|reflexivity|reflexivity].
  now destruct (Hs u).
Qed.

Lemma trace_bind_prefix {A B : Type} (m : Run A) (k : A -> Run B) :
  exists tr, trace (bind m k) = trace m ++ tr.
Proof.
  rewrite bind_trace_outcome.
  destruct (outcome m); cbn [trace fst]; eexists; try reflexivity;
    symmetry; apply app_nil_r.
Qed.

Lemma stream_episode_starts w path ep :
  exists tr, trace (stream_episode w path ep) = loading_actions path ep ++ tr.
Proof.
  unfold stream_episode. rewrite !bind_emit. cbn [trace fst].
  match goal with
  | |- context [trace (bind ?m ?k)] => destruct (trace_bind_prefix m k) as [tr E]
  end.
  rewrite E. unfold np_load. rewrite bind_emit. cbn [trace fst app loading_actions].
  eexists. reflexivity.
Qed.

(** X1 (lines 97-106): in distant mode, once the assertion on the output
    directory passed, the run starts with [logging.info], [rr.init] without
    a viewer, [gc.collect] and [rr.serve(open_browser=False)] on the two
    ports given, all before the first archive is loaded.  In every run an
    [rr.serve] event means mode distant, no browser and the ports given. *)
Theorem serve_only_in_distant_mode (w : World) (path : Py.Path) (ep wp ws : Z)
    (save : bool) (od : option Py.Path) :
  (save = true -> od <> None) ->
  (exists tr,
      trace (visualize_dataset w path ep "distant" wp ws save od)
      = [LoggingInfo "Starting Rerun";
         RrInit ("episode_" ++ Py.str_of_int ep) false;
         GcCollect;
         RrServe false wp ws;
         LoggingInfo "Logging to Rerun";
         LoggingInfo "Loading actions.";
         NpLoad (actions_file path ep)] ++ tr) /\
  (forall mode' save' od',
      Forall (fun ev => forall ob p1 p2,
                  ev = RrServe ob p1 p2 ->
                  mode' = "distant" /\ ob = false /\ p1 = wp /\ p2 = ws)
             (trace (visualize_dataset w path ep mode' wp ws save' od'))).
Proof.
  intros Hod. split.
  - rewrite (visualize_dataset_valid w path ep "distant" wp ws save od eq_refl Hod).
    rewrite (bind_returned _ _ _ _ eq_refl). cbn [prelude].
    change ("distant" =? "local") with false. change ("distant" =? "distant") with true.
    cbn [andb app].
    match goal with
    | |- context [trace (bind ?m ?k)] => destruct (trace_bind_prefix m k) as [tr E]
    end.
    rewrite E. destruct (stream_episode_starts w path ep) as [tr' E'].
    rewrite E'. cbn [loading_actions app]. eexists. reflexivity.
  - intros mode' save' od'. apply visualize_dataset_events;
      try (intros ob p1 p2 H; discriminate H).
    + intros Hd ob p1 p2 H. injection H as <- <- <-.
      apply String.eqb_eq in Hd. auto.
    + eapply Forall_impl; [|apply stream_episode_events].
      intros [] He ob p1 p2 H; discriminate.
    + eapply Forall_impl; [|apply finalize_events].
      intros [] He ob p1 p2 H; discriminate.
Qed.

Lemma serve_only_in_distant_mode_witness :
  firstn 4 (trace (visualize_dataset world_full ["/"; "data"; "ep"] 3 "distant" 9090 9087
                     true (Some ["out"])))
  = [LoggingInfo "Starting Rerun"; RrInit "episode_3" false; GcCollect;
     RrServe false 9090 9087].
Proof.
  assert (Hod : true = true -> Some ["out"] <> @None Py.Path) by (intros _; discriminate).
  destruct (serve_only_in_distant_mode world_full ["/"; "data"; "ep"] 3 9090 9087
              true (Some ["out"]) Hod) as [[tr E] _].
  rewrite E. reflexivity.
Defined.

(** X2 (lines 149-156): in distant mode, once the episode was streamed and
    with Ctrl-C arriving after [n] completed sleeps, the script prints the
    notice, calls [time.sleep(1)] n + 1 times, prints the acknowledgment and
    returns None.  [save] changes nothing: no directory is created and
    nothing is saved, even with an output directory. *)
Theorem distant_serves_until_interrupt (w : World) (path : Py.Path) (ep wp ws : Z)
    (save : bool) (od : option Py.Path) (n : nat) :
  (save = true -> od <> None) ->
  outcome (stream_episode w path ep) = Returned tt ->
  sigint_after w = Some n ->
  visualize_dataset w path ep "distant" wp ws save od
  = ([LoggingInfo "Starting Rerun";
      RrInit ("episode_" ++ Py.str_of_int ep) false;
      GcCollect;
      RrServe false wp ws]
       ++ trace (stream_episode w path ep)
       ++ [Print "Data sent; press Ctrl-C to terminate the websocket connection."]
       ++ repeat (TimeSleep 1) (S n)
       ++ [Print "Ctrl-C received. Exiting."],
     Returned None) /\
  Forall (fun ev => writes_disk ev = false)
         (trace (visualize_dataset w path ep "distant" wp ws save od)).
Proof.
  intros Hod Hs Hn.
  assert (E := visualize_dataset_streamed w path ep "distant" wp ws save od eq_refl Hod Hs).
  rewrite finalize_distant, Hn in E. cbn [trace outcome fst snd] in E.
  split; [exact E|].
  apply visualize_dataset_events; try reflexivity.
  - eapply Forall_impl; [|apply stream_episode_events]. now intros [].
  - rewrite finalize_distant, Hn. cbn [trace fst].
    repeat (apply Forall_app; split); try (repeat constructor).
    apply Forall_forall. intros ev Hin. apply repeat_spec in Hin. now subst ev.
Qed.

Lemma distant_serves_until_interrupt_witness :
  outcome (visualize_dataset world_full ["/"; "data"; "ep"] 3 "distant" 9090 9087
             true (Some ["out"]))
  = Returned None /\
  filter writes_disk
    (trace (visualize_dataset world_full ["/"; "data"; "ep"] 3 "distant" 9090 9087
              true (Some ["out"])))
  = [].
Proof.
  assert (Hod : true = true -> Some ["out"] <> @None Py.Path) by (intros _; discriminate).
  destruct (distant_serves_until_interrupt world_full ["/"; "data"; "ep"] 3 9090 9087
              true (Some ["out"]) 2 Hod eq_refl eq_refl) as [E _].
  rewrite E. split; reflexivity.
Defined.

(** X3 (lines 149-154): in distant mode, when Ctrl-C never arrives the
    script never returns: for however many turns the wait loop is followed,
    the run has printed the notice, has called [time.sleep(1)] once per
    turn, and is still in the loop. *)
Theorem distant_blocks_without_interrupt (w : World) (path : Py.Path) (ep wp ws : Z)
    (save : bool) (od : option Py.Path) :
  (save = true -> od <> None) ->
  outcome (stream_episode w path ep) = Returned tt ->
  sigint_after w = None ->
  visualize_dataset w path ep "distant" wp ws save od
  = ([LoggingInfo "Starting Rerun";
      RrInit ("episode_" ++ Py.str_of_int ep) false;
      GcCollect;
      RrServe false wp ws]
       ++ trace (stream_episode w path ep)
       ++ [Print "Data sent; press Ctrl-C to terminate the websocket connection."]
       ++ repeat (TimeSleep 1) (observed_sleeps w),
     Blocked) /\
  (forall p, outcome (visualize_dataset w path ep "distant" wp ws save od)
             <> Returned p).
Proof.
  intros Hod Hs Hn.
  assert (E := visualize_dataset_streamed w path ep "distant" wp ws save od eq_refl Hod Hs).
  rewrite finalize_distant, Hn in E. cbn [trace outcome fst snd] in E.
  split; [exact E|]. rewrite E. discriminate.
Qed.

Lemma distant_blocks_without_interrupt_witness :
  outcome (visualize_dataset world_never_interrupted ["/"; "data"; "ep"] 3 "distant"
             9090 9087 false None)
  = Blocked /\
  filter is_finalize_event
    (trace (visualize_dataset world_never_interrupted ["/"; "data"; "ep"] 3 "distant"
              9090 9087 false None))
  = [Print "Data sent; press Ctrl-C to terminate the websocket connection.";
     TimeSleep 1; TimeSleep 1; TimeSleep 1; TimeSleep 1].
Proof.
  assert (Hod : false = true -> @None Py.Path <> None) by discriminate.
  destruct (distant_blocks_without_interrupt world_never_interrupted ["/"; "data"; "ep"] 3
              9090 9087 false None Hod eq_refl eq_refl) as [E _].
  rewrite E. split; reflexivity.
Defined.

(** ** Failures while loading and streaming *)

Lemma prelude_not_finalize ep mode wp ws save :
  Forall (fun ev => is_finalize_event ev = false) (prelude ep mode wp ws save).
Proof. unfold prelude. destruct (mode =? "distant"); repeat constructor. Qed.

Lemma stream_not_finalize w path ep :
  Forall (fun ev => is_finalize_event ev = false) (trace (stream_episode w path ep)).
Proof.
  eapply Forall_impl; [|apply stream_episode_events]. now intros [].
Qed.

Lemma npz_getitem_missing npz key :
  ~ In key (map fst npz) ->
  npz_getitem npz key = raise (Py.KeyError (key ++ " is not a file in the archive")).
Proof.
  induction npz as [|[k v] npz IH]; intros H; [reflexivity|].
  cbn [npz_getitem]. destruct (k =? key) eqn:E.
  - apply String.eqb_eq in E. subst k. destruct H. now left.
  - apply IH. intros Hin. apply H. now right.
Qed.

Lemma stream_episode_no_actions_file w path ep :
  npz_files w (actions_file path ep) = None ->
  stream_episode w path ep
  = (loading_actions path ep, Raised (Py.FileNotFoundError (actions_file path ep))).
Proof.
  intros H. unfold stream_episode, np_load. fold (actions_file path ep).
  now rewrite H.
Qed.

Lemma stream_episode_no_actions_key w path ep actions :
  npz_files w (actions_file path ep) = Some actions ->
  ~ In "actions" (map fst actions) ->
  stream_episode w path ep
  = (loading_actions path ep,
     Raised (Py.KeyError ("actions" ++ " is not a file in the archive"))).
Proof.
  intros H Hk. unfold stream_episode, np_load. fold (actions_file path ep).
  rewrite H, !bind_emit. cbn [trace outcome ret fst snd bind].
  now rewrite (npz_getitem_missing _ _ Hk).
Qed.

Lemma stream_episode_actions_logged w path ep actions acts :
  npz_files w (actions_file path ep) = Some actions ->
  npz_getitem actions "actions" = ret acts ->
  outcome (log_actions acts) = Returned tt ->
  stream_episode w path ep
  = match npz_files w (observations_file path ep) with
    | Some observations =>
        (loading_actions path ep ++ trace (log_actions acts)
           ++ [NpLoad (observations_file path ep)]
           ++ trace (log_observations observations),
         outcome (log_observations observations))
    | None =>
        (loading_actions path ep ++ trace (log_actions acts)
           ++ [NpLoad (observations_file path ep)],
         Raised (Py.FileNotFoundError (observations_file path ep)))
    end.
Proof.
  intros H Hk Ho. unfold stream_episode, np_load, log_observations.
  fold (actions_file path ep). fold (observations_file path ep).
  rewrite H. unfold emit at 1 2 3. unfold ret at 1. cbn [bind app].
  rewrite Hk. unfold ret at 1. cbn [bind app].
  destruct (log_actions acts) as [trA oA]. cbn [outcome snd] in Ho. subst oA.
  cbn [bind trace outcome fst snd].
  destruct (npz_files w (observations_file path ep)) as [observations|].
  - unfold emit, ret. cbn [bind app].
    now destruct (for_each observations (fun '(key, value) => log_observation key value)).
  - reflexivity.
Qed.

(** X4 (line 112): when the actions archive is missing, a run in a valid
    mode raises FileNotFoundError for
    <path>/diffusion_spartan/episode_<i>/processed/actions.npz right after
    the set-up: nothing is logged to the sink, the observations archive is
    not looked for, and nothing of the finalization happens. *)
Theorem missing_actions_archive (w : World) (path : Py.Path) (ep : Z) (mode : string)
    (wp ws : Z) (save : bool) (od : option Py.Path) :
  Py.str_in mode ["local"; "distant"] = true ->
  (save = true -> od <> None) ->
  npz_files w (actions_file path ep) = None ->
  visualize_dataset w path ep mode wp ws save od
  = (prelude ep mode wp ws save ++ loading_actions path ep,
     Raised (Py.FileNotFoundError
               (path // "diffusion_spartan" // ("episode_" ++ Py.str_of_int ep)
                     // "processed" // "actions.npz"))).
Proof.
  intros Hm Hod H.
  pose proof (stream_episode_no_actions_file w path ep H) as E.
  rewrite (visualize_dataset_stream_failed w path ep mode wp ws save od Hm Hod).
  - rewrite E. reflexivity.
  - rewrite E. discriminate.
Qed.

Lemma missing_actions_archive_witness :
  visualize_dataset world_no_files ["/"; "data"; "ep"] 3 "local" 9090 9087 true
    (Some ["out"])
  = ([LoggingInfo "Starting Rerun"; RrInit "episode_3" false; GcCollect;
      LoggingInfo "Logging to Rerun"; LoggingInfo "Loading actions.";
      NpLoad (ep3_dir // "actions.npz")],
     Raised (Py.FileNotFoundError (ep3_dir // "actions.npz"))).
Proof.
  assert (Hod : true = true -> Some ["out"] <> @None Py.Path) by (intros _; discriminate).
  exact (missing_actions_archive world_no_files ["/"; "data"; "ep"] 3 "local" 9090 9087
           true (Some ["out"]) eq_refl Hod eq_refl).
Defined.

(** X5 (line 116): when the actions archive holds no array named
    [actions], a run in a valid mode raises KeyError as soon as the archive
    is opened: nothing is logged and the observations archive is not
    looked for. *)
Theorem missing_actions_key (w : World) (path : Py.Path) (ep : Z) (mode : string)
    (wp ws : Z) (save : bool) (od : option Py.Path) (actions : Np.NpzFile) :
  Py.str_in mode ["local"; "distant"] = true ->
  (save = true -> od <> None) ->
  npz_files w (actions_file path ep) = Some actions ->
  ~ In "actions" (map fst actions) ->
  exists msg,
    visualize_dataset w path ep mode wp ws save od
    = (prelude ep mode wp ws save ++ loading_actions path ep,
       Raised (Py.KeyError msg)).
Proof.
  intros Hm Hod H Hk.
  pose proof (stream_episode_no_actions_key w path ep actions H Hk) as E.
  eexists.
  rewrite (visualize_dataset_stream_failed w path ep mode wp ws save od Hm Hod).
  - rewrite E. reflexivity.
  - rewrite E. discriminate.
Qed.

Lemma missing_actions_key_witness :
  exists msg,
    visualize_dataset world_no_actions_key ["/"; "data"; "ep"] 3 "local" 9090 9087
      false None
    = ([LoggingInfo "Starting Rerun"; RrInit "episode_3" true; GcCollect;
        LoggingInfo "Logging to Rerun"; LoggingInfo "Loading actions.";
        NpLoad (ep3_dir // "actions.npz")],
       Raised (Py.KeyError msg)).
Proof.
  assert (Hod : false = true -> @None Py.Path <> None) by discriminate.
  assert (Hk : ~ In "actions" (map fst [("summary", ints [1]%Z)])).
  { simpl. intros [H|[]]. discriminate H. }
  exact (missing_actions_key world_no_actions_key ["/"; "data"; "ep"] 3 "local"
           9090 9087 false None [("summary", ints [1]%Z)] eq_refl Hod eq_refl Hk).
Defined.

(** X6 (line 123): when only the observations archive is missing, the
    actions (shape T x D) are streamed in full, T * D records, and then the
    run raises FileNotFoundError for
    <path>/diffusion_spartan/episode_<i>/processed/observations.npz; the
    finalization is not reached. *)
Theorem missing_observations_archive (w : World) (path : Py.Path) (ep : Z)
    (mode : string) (wp ws : Z) (save : bool) (od : option Py.Path)
    (actions : Np.NpzFile) (acts : Np.ndarray) (T D : nat) (c : Clock) :
  Py.str_in mode ["local"; "distant"] = true ->
  (save = true -> od <> None) ->
  npz_files w (actions_file path ep) = Some actions ->
  npz_getitem actions "actions" = ret acts ->
  Np.has_shape [T; D] acts ->
  npz_files w (observations_file path ep) = None ->
  visualize_dataset w path ep mode wp ws save od
  = (prelude ep mode wp ws save ++ loading_actions path ep
       ++ trace (log_actions acts)
       ++ [NpLoad (path // "diffusion_spartan" // ("episode_" ++ Py.str_of_int ep)
                        // "processed" // "observations.npz")],
     Raised (Py.FileNotFoundError
               (path // "diffusion_spartan" // ("episode_" ++ Py.str_of_int ep)
                     // "processed" // "observations.npz"))) /\
  length (records c (trace (visualize_dataset w path ep mode wp ws save od))) = T * D.
Proof.
  intros Hm Hod H Hk Hsh Hobs.
  destruct (log_actions_matrix T D acts (final_clock c (prelude ep mode wp ws save ++ loading_actions path ep)) Hsh)
    as (Ho & Hr & _).
  pose proof (stream_episode_actions_logged w path ep actions acts H Hk Ho) as E.
  rewrite Hobs in E.
  assert (Ev : visualize_dataset w path ep mode wp ws save od
               = (prelude ep mode wp ws save ++ loading_actions path ep
                    ++ trace (log_actions acts) ++ [NpLoad (observations_file path ep)],
                  Raised (Py.FileNotFoundError (observations_file path ep)))).
  { rewrite (visualize_dataset_stream_failed w path ep mode wp ws save od Hm Hod).
    - rewrite E. reflexivity.
    - rewrite E. discriminate. }
  split; [exact Ev|].
  rewrite Ev. cbn [trace fst]. rewrite app_assoc, records_app.
  rewrite (records_no_log c (prelude ep mode wp ws save ++ loading_actions path ep)).
  - cbn [app]. rewrite records_app, Hr.
    rewrite (records_no_log _ [NpLoad _]) by (repeat constructor).
    rewrite app_nil_r. apply has_shape_matrix in Hsh as (_ & _ & Hlen & HD).
    now apply scalar_records_length.
  - apply Forall_app. split; [|repeat constructor].
    unfold prelude. destruct (mode =? "distant"); repeat constructor.
Qed.

Lemma missing_observations_archive_witness :
  outcome (visualize_dataset world_no_observations ["/"; "data"; "ep"] 3 "local" 9090 9087
             false None)
  = Raised (Py.FileNotFoundError (ep3_dir // "observations.npz")) /\
  length (records clock0
            (trace (visualize_dataset world_no_observations ["/"; "data"; "ep"] 3 "local"
                      9090 9087 false None)))
  = 5 * 2.
Proof.
  assert (Hod : false = true -> @None Py.Path <> None) by discriminate.
  assert (Hsh : Np.has_shape [5; 2] actions_5x2) by (simpl; repeat constructor).
  destruct (missing_observations_archive world_no_observations ["/"; "data"; "ep"] 3
              "local" 9090 9087 false None [("actions", actions_5x2)] actions_5x2 5 2
              clock0 eq_refl Hod eq_refl eq_refl Hsh eq_refl) as [E L].
  split; [rewrite E; reflexivity|exact L].
Defined.

(** X7 (lines 108-147): whenever the streaming part raises, for whatever
    reason, a run in a valid mode ends with that same exception and nothing
    of the finalization happens: no directory is created, nothing is saved
    or printed, and the wait loop is not entered. *)
Theorem failed_stream_skips_finalization (w : World) (path : Py.Path) (ep : Z)
    (mode : string) (wp ws : Z) (save : bool) (od : option Py.Path) (e : Py.exc) :
  Py.str_in mode ["local"; "distant"] = true ->
  (save = true -> od <> None) ->
  outcome (stream_episode w path ep) = Raised e ->
  visualize_dataset w path ep mode wp ws save od
  = (prelude ep mode wp ws save ++ trace (stream_episode w path ep), Raised e) /\
  Forall (fun ev => is_finalize_event ev = false)
         (trace (visualize_dataset w path ep mode wp ws save od)).
Proof.
  intros Hm Hod Hs.
  assert (E : visualize_dataset w path ep mode wp ws save od
              = (prelude ep mode wp ws save ++ trace (stream_episode w path ep), Raised e)).
  { rewrite (visualize_dataset_stream_failed w path ep mode wp ws save od Hm Hod).
    - now rewrite Hs.
    - rewrite Hs. discriminate. }
  split; [exact E|]. rewrite E. cbn [trace fst].
  apply Forall_app. split; [apply prelude_not_finalize|apply stream_not_finalize].
Qed.

Lemma failed_stream_skips_finalization_witness :
  filter is_finalize_event
    (trace (visualize_dataset world_no_observations ["/"; "data"; "ep"] 3 "local" 9090 9087
              true (Some ["out"])))
  = [].
Proof.
  assert (Hod : true = true -> Some ["out"] <> @None Py.Path) by (intros _; discriminate).
  destruct (failed_stream_skips_finalization world_no_observations ["/"; "data"; "ep"] 3
              "local" 9090 9087 true (Some ["out"])
              (Py.FileNotFoundError (ep3_dir // "observations.npz"))
              eq_refl Hod eq_refl) as [E _].
  rewrite E. reflexivity.
Defined.

(** ** Arrays with too few axes *)

Lemma has_shape_vector n a :
  Np.has_shape [S n] a ->
  exists x rest, a = Np.Array (Np.Item x :: rest).
Proof.
  destruct a as [x|xs]; cbn [Np.has_shape]; [tauto|].
  intros [Hlen Hall]. destruct xs as [|y rest]; [discriminate Hlen|].
  inversion Hall as [|? ? Hy _]; subst.
  destruct y as [x|ys]; [|destruct Hy]. now exists x, rest.
Qed.

(** X8 (lines 116-120): an [actions] array with one axis only (T > 0
    values) stops the action loop in its first turn: both time axes are set
    for frame 0, then iterating the first value raises TypeError; no record
    is logged. *)
Theorem actions_vector_raises (n : nat) (acts : Np.ndarray) :
  Np.has_shape [S n] acts ->
  exists msg,
    log_actions acts
    = ([RrSetTimeSequence "frame_index" 0; RrSetTimeSeconds "timestamp" (Py.Int 0)],
       Raised (Py.TypeError msg)).
Proof.
  intros H. destruct (has_shape_vector _ _ H) as (x & rest & ->).
  eexists. reflexivity.
Qed.

Lemma actions_vector_raises_witness :
  exists msg,
    log_actions (ints [1; 2; 3]%Z)
    = ([RrSetTimeSequence "frame_index" 0; RrSetTimeSeconds "timestamp" (Py.Int 0)],
       Raised (Py.TypeError msg)).
Proof.
  apply (actions_vector_raises 2 (ints [1; 2; 3]%Z)). simpl. repeat constructor.
Defined.

(** X9 (lines 126-130): a robot channel whose array has one axis only
    (T > 0 values) stops in its first turn: the frame index is set to 0,
    then iterating the first value raises TypeError; no record is logged. *)
Theorem robot_vector_raises (key : string) (n : nat) (value : Np.ndarray) :
  Py.str_contains "robot_" key = true ->
  Np.has_shape [S n] value ->
  exists msg,
    log_observation key value
    = ([RrSetTimeSequence "frame_index" 0], Raised (Py.TypeError msg)).
Proof.
  intros Hk H. rewrite (log_observation_robot _ _ Hk).
  destruct (has_shape_vector _ _ H) as (x & rest & ->).
  eexists. reflexivity.
Qed.

Lemma robot_vector_raises_witness :
  exists msg,
    log_observation "robot_gripper" (ints [1; 2; 3]%Z)
    = ([RrSetTimeSequence "frame_index" 0], Raised (Py.TypeError msg)).
Proof.
  apply (robot_vector_raises "robot_gripper" 2 (ints [1; 2; 3]%Z) eq_refl).
  simpl. repeat constructor.
Defined.

(** X10 (lines 133-138): a channel that is neither a robot nor a depth
    channel is sliced as an image.  If its frames have fewer than two axes
    (the array has shape T, or T x W, with T, W > 0), the first turn sets
    the frame index to 0 and the slicing raises IndexError; no record is
    logged. *)
Theorem camera_too_few_axes_raises (key : string) (n m : nat) (value : Np.ndarray) :
  Py.str_contains "robot_" key = false ->
  Py.str_contains "_depth" key = false ->
  Np.has_shape [S n] value \/ Np.has_shape [S n; S m] value ->
  exists msg,
    log_observation key value
    = ([RrSetTimeSequence "frame_index" 0], Raised (Py.IndexError msg)).
Proof.
  intros Hr Hd H. rewrite (log_observation_camera _ _ Hr Hd).
  destruct H as [H|H].
  - destruct (has_shape_vector _ _ H) as (x & rest & ->). eexists. reflexivity.
  - destruct value as [x|frames]; [destruct H|]. destruct H as [Hlen Hall].
    destruct frames as [|fr frames]; [discriminate Hlen|].
    inversion Hall as [|? ? Hfr _]; subst.
    destruct (has_shape_vector _ _ Hfr) as (x & rest & ->).
    eexists. reflexivity.
Qed.

Lemma camera_too_few_axes_raises_witness :
  exists msg,
    log_observation "timestamps" (matrix [[1; 2]; [3; 4]]%Z)
    = ([RrSetTimeSequence "frame_index" 0], Raised (Py.IndexError msg)).
Proof.
  apply (camera_too_few_axes_raises "timestamps" 1 1 (matrix [[1; 2]; [3; 4]]%Z)
           eq_refl eq_refl).
  right. simpl. repeat constructor.
Defined.

(** ** The loop over the observation channels *)

Lemma for_each_app {A : Type} (xs ys : list A) (body : A -> Run unit) :
  for_each (xs ++ ys) body = (for_each xs body ;; for_each ys body).
Proof.
  induction xs as [|x xs IH]; cbn [app].
  - change (for_each [] body) with (@ret unit tt). now rewrite bind_ret.
  - rewrite !for_each_cons, IH.
    destruct (body x) as [tr [[]|e|]]; cbn [bind]; try reflexivity.
    destruct (for_each xs body) as [tr1 [[]|e1|]]; cbn [bind]; try reflexivity.
    destruct (for_each ys body) as [tr2 o2]. now rewrite app_assoc.
Qed.

Lemma channel_loop_facts T n key value :
  loop_frames T n (ChannelLoop key value) ->
  outcome (log_observation key value) = Returned tt /\
  frame_index_values (trace (log_observation key value)) = map Z.of_nat (seq 0 T) /\
  forall c,
    map rec_frame_index (records c (trace (log_observation key value)))
    = flat_map (fun i => repeat (Some (Z.of_nat i)) n) (seq 0 T).
Proof.
  cbn [loop_frames]. unfold log_observation.
  destruct (Py.str_contains "robot_" key); [|destruct (Py.str_contains "_depth" key)];
    intros H.
  - destruct (log_robot_matrix key T n value clock0 H) as (Ho & _ & Hf & _).
    split; [exact Ho|]. split; [exact Hf|]. intros c.
    destruct (log_robot_matrix key T n value c H) as (_ & Hr & _).
    apply has_shape_matrix in H as (_ & _ & Hlen & HD).
    rewrite Hr. now apply scalar_records_frame_index.
  - subst T. repeat split.
  - destruct H as (-> & Hh & W & C & H).
    destruct (log_camera_images key T Hh W [C] value clock0 H)
      as (images0 & Ho & _ & Hf & _).
    split; [exact Ho|]. split; [exact Hf|]. intros c.
    destruct (log_camera_images key T Hh W [C] value c H)
      as (images & _ & Hr & _ & _ & HF).
    rewrite Hr, image_records_frame_index, <- (Forall2_length HF).
    now apply has_shape_cons in H as (_ & -> & _).
Qed.

Lemma frames_repeat_length {A : Type} (f : nat -> A) n k T :
  length (flat_map (fun i => repeat (f i) n) (seq k T)) = T * n.
Proof.
  revert k. induction T as [|T IH]; intros k; [reflexivity|].
  cbn [seq flat_map]. rewrite length_app, repeat_length, IH. lia.
Qed.

(** X11 (lines 125-138): the channels are streamed in archive order, each
    from frame index 0.  For channels of the expected shapes (channel k with
    T_k frames of n_k records) the loop returns, its events are those of the
    channels one after the other, the frame-index axis runs over
    0 .. T_k - 1 for each channel in turn, and the sink holds the sum of the
    T_k * n_k records.  A channel after them that raises ends the loop:
    what was logged before stays, the channels behind it are not touched. *)
Theorem observations_in_archive_order (observations : Np.NpzFile)
    (shapes : list (nat * nat)) (c : Clock) :
  Forall2 (fun kv Tn => loop_frames (fst Tn) (snd Tn) (ChannelLoop (fst kv) (snd kv)))
          observations shapes ->
  outcome (log_observations observations) = Returned tt /\
  trace (log_observations observations)
  = flat_map (fun kv => trace (log_observation (fst kv) (snd kv))) observations /\
  frame_index_values (trace (log_observations observations))
  = flat_map (fun Tn => map Z.of_nat (seq 0 (fst Tn))) shapes /\
  map rec_frame_index (records c (trace (log_observations observations)))
  = flat_map (fun Tn => flat_map (fun i => repeat (Some (Z.of_nat i)) (snd Tn))
                          (seq 0 (fst Tn)))
             shapes /\
  length (records c (trace (log_observations observations)))
  = list_sum (map (fun Tn => fst Tn * snd Tn) shapes) /\
  (forall key value e rest,
      outcome (log_observation key value) = Raised e ->
      log_observations (observations ++ (key, value) :: rest)
      = (trace (log_observations observations) ++ trace (log_observation key value),
         Raised e)).
Proof.
  intros H.
  assert (Hrun : log_observations observations
                 = (flat_map (fun kv => trace (log_observation (fst kv) (snd kv)))
                      observations,
                    Returned tt)).
  { unfold log_observations. apply for_each_returned.
    induction H as [|[key value] [T n] obs shs Hkv _ IH]; constructor; [|exact IH].
    cbn [fst snd] in Hkv |- *.
    destruct (channel_loop_facts T n key value Hkv) as (Ho & _).
    now rewrite (run_eta (log_observation key value)), Ho. }
  rewrite Hrun. cbn [trace outcome fst snd].
  split; [reflexivity|]. split; [reflexivity|].
  assert (Hrec : forall c',
             map rec_frame_index
               (records c' (flat_map (fun kv => trace (log_observation (fst kv) (snd kv)))
                              observations))
             = flat_map (fun Tn => flat_map (fun i => repeat (Some (Z.of_nat i)) (snd Tn))
                                     (seq 0 (fst Tn)))
                        shapes).
  { clear - H.
    induction H as [|[key value] [T n] obs shs Hkv _ IH]; intros c'; [reflexivity|].
    cbn [flat_map fst snd] in *.
    destruct (channel_loop_facts T n key value Hkv) as (_ & _ & Hr).
    now rewrite records_app, map_app, Hr, IH. }
  split; [|split; [apply Hrec|split]].
  - clear - H.
    induction H as [|[key value] [T n] obs shs Hkv _ IH]; [reflexivity|].
    cbn [flat_map fst snd] in *.
    destruct (channel_loop_facts T n key value Hkv) as (_ & Hf & _).
    now rewrite frame_index_values_app, Hf, IH.
  - rewrite <- (length_map rec_frame_index), Hrec.
    clear. induction shapes as [|[T n] shs IH]; [reflexivity|].
    cbn [flat_map map list_sum fst snd]. now rewrite length_app, frames_repeat_length, IH.
  - intros key value e rest He.
    unfold log_observations in *. rewrite for_each_app, Hrun.
    rewrite for_each_cons.
    rewrite (bind_returned _ _ _ _ eq_refl).
    rewrite (run_eta (log_observation key value)), He. reflexivity.
Qed.

Lemma observations_in_archive_order_witness :
  frame_index_values (trace (log_observations observations_ep3)) = [0; 1; 0; 1]%Z /\
  length (records clock0 (trace (log_observations observations_ep3))) = 2 * 2 + 0 + 2 * 1.
Proof.
  assert (H : Forall2 (fun kv Tn =>
                         loop_frames (fst Tn) (snd Tn) (ChannelLoop (fst kv) (snd kv)))
                      observations_ep3 [(2, 2); (0, 0); (2, 1)]).
  { repeat constructor. exists 3, 3, 1. simpl. repeat constructor. }
  destruct (observations_in_archive_order observations_ep3 [(2, 2); (0, 0); (2, 1)]
              clock0 H) as (_ & _ & Hf & _ & Hn & _).
  split; [exact Hf|exact Hn].
Defined.

(** X12 (lines 131-132): skipped channels are inert: taking every channel
    whose name holds [_depth] and not [robot_] out of the archive changes
    neither the events nor the outcome of the loop. *)
Theorem skipped_channels_inert (observations : Np.NpzFile) :
  log_observations (filter (fun kv => negb (skipped (fst kv))) observations)
  = log_observations observations.
Proof.
  unfold log_observations.
  induction observations as [|[key value] obs IH]; [reflexivity|].
  cbn [filter fst]. destruct (skipped key) eqn:E; cbn [negb].
  - rewrite for_each_cons, IH.
    unfold skipped in E. apply andb_prop in E as [E1 E2].
    apply negb_true_iff in E1.
    now rewrite (log_observation_depth _ _ E1 E2), bind_ret.
  - now rewrite !for_each_cons, IH.
Qed.

(** ** Where the records of the observations land on the timestamp axis *)

Lemma log_observations_no_seconds observations :
  Forall (fun ev => is_set_time_seconds ev = false) (trace (log_observations observations)).
Proof.
  unfold log_observations. apply trace_for_each_Forall.
  intros [key value]. apply log_observation_no_seconds.
Qed.

Lemma fold_left_last_clock (c : Clock) (l : list nat) (i : nat) :
  fold_left (fun _ j => action_clock j) (l ++ [i]) c = action_clock i.
Proof. now rewrite fold_left_app. Qed.

Lemma records_after_actions c frames rest :
  records c (flat_map (frame_events action_hdr (scalar_logs action_path))
               (Py.enumerate frames) ++ rest)
  = scalar_records action_path (fun i => Some (running_total i)) frames
    ++ records (fold_left (fun _ j => action_clock j) (seq 0 (length frames)) c) rest.
Proof.
  rewrite (records_frames action_hdr (fun _ i => action_clock i) (scalar_logs action_path)
             (fun c i rest => records_action_hdr c i rest) (fun _ _ _ => eq_refl)).
  unfold Py.enumerate at 2. rewrite enumerate_from_fst. f_equal.
  now apply frame_records_scalar.
Qed.

(** X13 (lines 116-138): the observation loops never set the timestamp
    axis, so after an action array of T + 1 frames every record of every
    observation channel is at the timestamp of the last action frame, the
    running total of T increments; the action records come first, each at
    its own running total. *)
Theorem observations_at_last_action_timestamp (w : World) (path : Py.Path) (ep : Z)
    (actions observations : Np.NpzFile) (acts : Np.ndarray) (T D : nat) (c : Clock) :
  npz_files w (actions_file path ep) = Some actions ->
  npz_getitem actions "actions" = ret acts ->
  Np.has_shape [S T; D] acts ->
  npz_files w (observations_file path ep) = Some observations ->
  records c (trace (stream_episode w path ep))
  = scalar_records action_path (fun i => Some (running_total i)) (Np.items acts)
    ++ records (action_clock T) (trace (log_observations observations)) /\
  Forall (fun r => rec_timestamp r = Some (running_total T))
         (records (action_clock T) (trace (log_observations observations))).
Proof.
  intros H Hk Hsh Hobs. split.
  - pose proof Hsh as Hsh'.
    apply has_shape_matrix in Hsh' as (Ha & Hfr & Hlen & _).
    pose proof (log_actions_run _ Ha Hfr) as Erun.
    assert (Ho : outcome (log_actions acts) = Returned tt) by now rewrite Erun.
    rewrite (stream_episode_actions_logged w path ep actions acts H Hk Ho), Hobs.
    cbn [trace fst loading_actions app records tick].
    rewrite Erun. cbn [trace fst].
    rewrite records_after_actions, Hlen, seq_S, fold_left_last_clock.
    reflexivity.
  - apply (records_timestamp_stable (action_clock T)).
    apply log_observations_no_seconds.
Qed.

Lemma observations_at_last_action_timestamp_witness :
  Forall (fun r => rec_timestamp r = Some (running_total 4))
         (records (action_clock 4) (trace (log_observations observations_ep3))) /\
  length (records clock0 (trace (stream_episode world_full ["/"; "data"; "ep"] 3)))
  = 10 + 6.
Proof.
  assert (Hsh : Np.has_shape [5; 2] actions_5x2) by (simpl; repeat constructor).
  destruct (observations_at_last_action_timestamp world_full ["/"; "data"; "ep"] 3
              [("actions", actions_5x2)] observations_ep3 actions_5x2 4 2 clock0
              eq_refl eq_refl Hsh eq_refl) as [E F].
  split; [exact F|]. rewrite E. reflexivity.
Defined.

(** ** The records do not depend on how the session is delivered *)

Lemma prelude_no_records c ep mode wp ws save rest :
  records c (prelude ep mode wp ws save ++ rest) = records c rest.
Proof. unfold prelude. now destruct (mode =? "distant"). Qed.

Lemma finalize_no_records c w ep mode save od :
  records c (trace (finalize w ep mode save od)) = [].
Proof.
  apply records_no_log. eapply Forall_impl; [|apply finalize_events]. now intros [].
Qed.

(** X14 (lines 97-157): for a valid mode and a passing assertion, the
    records in the sink are those of the streaming part alone, whatever the
    mode, the ports, [save] and the output directory: the set-up and the
    finalization log nothing and set no time axis before a record. *)
Theorem records_independent_of_delivery (w : World) (path : Py.Path) (ep : Z)
    (mode : string) (wp ws : Z) (save : bool) (od : option Py.Path) (c : Clock) :
  Py.str_in mode ["local"; "distant"] = true ->
  (save = true -> od <> None) ->
  records c (trace (visualize_dataset w path ep mode wp ws save od))
  = records c (trace (stream_episode w path ep)).
Proof.
  intros Hm Hod. rewrite (visualize_dataset_valid _ _ _ _ _ _ _ _ Hm Hod).
  rewrite (bind_returned _ _ _ _ eq_refl). cbn [trace fst].
  rewrite prelude_no_records, bind_trace_outcome.
  destruct (outcome (stream_episode w path ep)) as [[]|e|]; cbn [trace fst];
    try reflexivity.
  now rewrite records_app, finalize_no_records, app_nil_r.
Qed.

Lemma records_independent_of_delivery_witness :
  records clock0
    (trace (visualize_dataset world_full ["/"; "data"; "ep"] 3 "distant" 9090 9087 true
              (Some ["out"])))
  = records clock0
      (trace (visualize_dataset world_full ["/"; "data"; "ep"] 3 "local" 9090 9087 false
                None)).
Proof.
  assert (H1 : true = true -> Some ["out"] <> @None Py.Path) by (intros _; discriminate).
  assert (H2 : false = true -> @None Py.Path <> None) by discriminate.
  rewrite (records_independent_of_delivery world_full ["/"; "data"; "ep"] 3 "distant"
             9090 9087 true (Some ["out"]) clock0 eq_refl H1).
  rewrite (records_independent_of_delivery world_full ["/"; "data"; "ep"] 3 "local"
             9090 9087 false None clock0 eq_refl H2).
  reflexivity.
Defined.

(** ** Names: session ids, archive paths, entity paths, channel names *)

Lemma to_int_not_nil z :
  Z.to_int z <> Decimal.Pos Decimal.Nil /\ Z.to_int z <> Decimal.Neg Decimal.Nil.
Proof.
  split; intros E; pose proof (f_equal Z.of_int E) as E';
    rewrite DecimalZ.of_to in E'; cbn in E'; subst z; discriminate E.
Qed.

Lemma str_of_int_inj a b : Py.str_of_int a = Py.str_of_int b -> a = b.
Proof.
  unfold Py.str_of_int. intros H.
  apply (f_equal NilZero.int_of_string) in H.
  rewrite !NilZero.isi in H by apply to_int_not_nil.
  injection H as H. now apply DecimalZ.to_int_inj.
Qed.

Lemma str_of_nat_inj a b : Py.str_of_nat a = Py.str_of_nat b -> a = b.
Proof. unfold Py.str_of_nat. intros H. apply str_of_int_inj in H. lia. Qed.

Lemma append_inj_l (p a b : string) : (p ++ a = p ++ b)%string -> a = b.
Proof.
  induction p as [|ch p IH]; cbn; intros H; [exact H|]. injection H as H. auto.
Qed.

Lemma episode_dir_inj path i j : episode_dir path i = episode_dir path j -> i = j.
Proof.
  unfold episode_dir, Py.truediv. intros H.
  apply app_inj_tail in H as [H _]. apply app_inj_tail in H as [_ H].
  apply (append_inj_l "episode_") in H. now apply str_of_int_inj.
Qed.

(** X15 (lines 98, 112, 123): two different episode indices never share
    a session id, an actions archive or an observations archive. *)
Theorem episodes_do_not_collide (path : Py.Path) (i j : Z) :
  i <> j ->
  ("episode_" ++ Py.str_of_int i <> "episode_" ++ Py.str_of_int j)%string /\
  actions_file path i <> actions_file path j /\
  observations_file path i <> observations_file path j.
Proof.
  intros N. repeat split; intros H; apply N.
  - apply (append_inj_l "episode_") in H. now apply str_of_int_inj.
  - unfold actions_file, Py.truediv in H. apply app_inj_tail in H as [H _].
    now apply episode_dir_inj in H.
  - unfold observations_file, Py.truediv in H. apply app_inj_tail in H as [H _].
    now apply episode_dir_inj in H.
Qed.

Lemma episodes_do_not_collide_witness :
  actions_file ["/"; "data"; "ep"] 3 <> actions_file ["/"; "data"; "ep"] 30.
Proof.
  assert (N : (3 <> 30)%Z) by discriminate.
  exact (proj1 (proj2 (episodes_do_not_collide ["/"; "data"; "ep"] 3 30 N))).
Defined.

Lemma NoDup_map_injective {A B : Type} (f : A -> B) l :
  (forall x y, f x = f y -> x = y) -> NoDup l -> NoDup (map f l).
Proof.
  intros Hf H. induction H as [|x l Hx _ IH]; cbn; constructor; auto.
  intros Hin. apply in_map_iff in Hin as (y & E & Hy).
  apply Hf in E. now subst y.
Qed.

(** X16 (lines 121, 130): the scalar records of one frame go to pairwise
    different entity paths, one per dimension, in the action stream and in
    every robot channel. *)
Theorem entity_paths_distinct (key : string) (D : nat) :
  NoDup (map action_path (seq 0 D)) /\
  NoDup (map (channel_path key) (seq 0 D)).
Proof.
  split; apply NoDup_map_injective; try apply seq_NoDup; intros x y H.
  - apply (append_inj_l "action/") in H. now apply str_of_nat_inj.
  - unfold channel_path in H. apply append_inj_l in H.
    apply (append_inj_l "/") in H. now apply str_of_nat_inj.
Qed.

Lemma prefix_spec sub s :
  String.prefix sub s = true <-> exists post, s = (sub ++ post)%string.
Proof.
  revert s. induction sub as [|a sub IH]; intros s.
  - destruct s; cbn; split; eauto.
  - destruct s as [|b s]; cbn.
    + split; [discriminate|]. intros [post H]. discriminate H.
    + destruct (ascii_dec a b) as [->|N].
      * rewrite IH. split; intros [post H]; exists post.
        -- now rewrite H.
        -- now injection H.
      * split; [discriminate|]. intros [post H]. injection H as H1 H2. now destruct N.
Qed.

Lemma str_contains_spec sub s :
  Py.str_contains sub s = true <-> exists pre post, s = (pre ++ sub ++ post)%string.
Proof.
  induction s as [|ch s IH]; cbn [Py.str_contains].
  - destruct (String.prefix sub "") eqn:E.
    + split; [|reflexivity]. intros _. apply prefix_spec in E as [post H].
      exists "", post. exact H.
    + split; [discriminate|]. intros (pre & post & H).
      destruct pre; [|discriminate H]. cbn in H.
      assert (String.prefix sub "" = true) by (apply prefix_spec; eauto). congruence.
  - destruct (String.prefix sub (String ch s)) eqn:E.
    + split; [|reflexivity]. intros _. apply prefix_spec in E as [post H].
      exists "", post. exact H.
    + rewrite IH. split.
      * intros (pre & post & H). exists (String ch pre), post. cbn. now rewrite H.
      * intros (pre & post & H). destruct pre as [|ch' pre].
        -- cbn in H. assert (String.prefix sub (String ch s) = true)
             by (apply prefix_spec; eauto). congruence.
        -- cbn in H. injection H as _ H. eauto.
Qed.

(** X17 (lines 126-133): the branch a channel takes is decided by its name
    as a string: the robot branch when [robot_] occurs anywhere in it, the
    skip when [_depth] occurs and [robot_] does not, the camera branch when
    neither occurs. *)
Theorem dispatch_by_substring (key : string) (value : Np.ndarray) :
  ((exists pre post, key = (pre ++ "robot_" ++ post)%string) ->
   log_observation key value = log_robot key value) /\
  (~ (exists pre post, key = (pre ++ "robot_" ++ post)%string) ->
   (exists pre post, key = (pre ++ "_depth" ++ post)%string) ->
   log_observation key value = ([], Returned tt)) /\
  (~ (exists pre post, key = (pre ++ "robot_" ++ post)%string) ->
   ~ (exists pre post, key = (pre ++ "_depth" ++ post)%string) ->
   log_observation key value = log_camera key value).
Proof.
  pose proof (str_contains_spec "robot_" key) as Hr.
  pose proof (str_contains_spec "_depth" key) as Hd.
  unfold log_observation.
  destruct (Py.str_contains "robot_" key); destruct (Py.str_contains "_depth" key);
    repeat split; intros; try reflexivity;
    repeat match goal with
           | H : ~ _, I : true = true <-> _ |- _ => destruct H; now apply I
           | H : exists _ _, _, I : false = true <-> _ |- _ =>
               apply I in H; discriminate H
           end.
Qed.

(** ** The command line *)

Lemma int_truth_nonzero n : n <> 0%Z -> int_truth n = true.
Proof. intros H. unfold int_truth. now apply negb_true_iff, Z.eqb_neq. Qed.

(** X18 (lines 159-214, 97-98): run from the command line without
    [--mode] (or with [--mode local]) and without [--save] (or with
    [--save 0]), the script spawns the local viewer at [rr.init] and, once
    the episode was streamed, ends normally with nothing written, whatever
    the ports and the output directory given. *)
Theorem main_local_view (w : World) (cli : Cli) :
  with_default "local" (cli_mode cli) = "local" ->
  with_default 0%Z (cli_save cli) = 0%Z ->
  outcome (stream_episode w (cli_path cli) (cli_episode_index cli)) = Returned tt ->
  main w cli
  = ([LoggingInfo "Starting Rerun";
      RrInit ("episode_" ++ Py.str_of_int (cli_episode_index cli)) true;
      GcCollect]
       ++ trace (stream_episode w (cli_path cli) (cli_episode_index cli)),
     Returned tt).
Proof.
  intros Hm Hs Ho. unfold main. rewrite Hm, Hs.
  change (int_truth 0) with false.
  assert (Hod : false = true -> cli_output_dir cli <> None) by discriminate.
  rewrite (visualize_dataset_streamed w _ _ "local" _ _ false _ eq_refl Hod Ho).
  rewrite finalize_local_nosave. cbn [trace outcome fst snd prelude].
  change ("local" =? "local") with true. change ("local" =? "distant") with false.
  cbn [andb negb app bind ret]. now rewrite !app_nil_r.
Qed.

Lemma main_local_view_witness :
  outcome (main world_ep3 cli_ep3) = Returned tt /\
  firstn 3 (trace (main world_ep3 cli_ep3))
  = [LoggingInfo "Starting Rerun"; RrInit "episode_3" true; GcCollect].
Proof.
  rewrite (main_local_view world_ep3 cli_ep3 eq_refl eq_refl eq_refl).
  split; reflexivity.
Defined.

(** X19 (lines 197-211, 87-90): [--save] is an int that the script tests
    for truth, so every value other than 0 asks for a save; given without
    [--output-dir] it makes the script fail on its first statement, whatever
    the mode, with nothing done. *)
Theorem main_save_requires_output_dir (w : World) (cli : Cli) (n : Z) :
  cli_save cli = Some n ->
  n <> 0%Z ->
  cli_output_dir cli = None ->
  main w cli = ([], Raised (Py.AssertionError assert_output_dir_msg)).
Proof.
  intros Hs Hn Hod. unfold main. rewrite Hs, Hod. cbn [with_default].
  rewrite (int_truth_nonzero _ Hn). reflexivity.
Qed.

Lemma main_save_requires_output_dir_witness :
  main world_ep3 cli_save_no_dir
  = ([], Raised (Py.AssertionError assert_output_dir_msg)).
Proof.
  assert (N : (-1 <> 0)%Z) by discriminate.
  exact (main_save_requires_output_dir world_ep3 cli_save_no_dir (-1)%Z eq_refl N eq_refl).
Defined.

(** X20 (lines 159-214, 140-147): the save workflow of the docstring,
    [--save n --output-dir dir] with n other than 0 in local mode, never
    ends normally and never calls [rr.save]: when the episode streams, the
    directory is created and the run stops on NameError for [repo_id]. *)
Theorem main_save_never_completes (w : World) (cli : Cli) (n : Z) (d : Py.Path) :
  cli_save cli = Some n ->
  n <> 0%Z ->
  cli_output_dir cli = Some d ->
  with_default "local" (cli_mode cli) = "local" ->
  (forall u, outcome (main w cli) <> Returned u) /\
  Forall (fun ev => is_save ev = false) (trace (main w cli)) /\
  (outcome (stream_episode w (cli_path cli) (cli_episode_index cli)) = Returned tt ->
   outcome (main w cli) = Raised (Py.NameError "repo_id") /\
   last (trace (main w cli)) GcCollect = Mkdir d true true).
Proof.
  intros Hs Hn Hod Hm. unfold main. rewrite Hs, Hod, Hm. cbn [with_default].
  rewrite (int_truth_nonzero _ Hn).
  destruct (local_save_never_saves w (cli_path cli) (cli_episode_index cli)
              (with_default 9090%Z (cli_web_port cli))
              (with_default 9087%Z (cli_ws_port cli)) d) as (H1 & H2 & H3).
  rewrite bind_trace_outcome.
  destruct (outcome (visualize_dataset _ _ _ _ _ _ _ _)) as [p|e|] eqn:E.
  - now destruct (H1 p).
  - cbn [trace outcome fst snd].
    split; [discriminate|]. split; [exact H2|].
    intros Ho. specialize (H3 Ho). rewrite H3 in E |- *.
    cbn [trace outcome fst snd] in *. injection E as <-. split; [reflexivity|].
    now rewrite !app_assoc, last_last.
  - cbn [trace outcome fst snd].
    split; [discriminate|]. split; [exact H2|].
    intros Ho. specialize (H3 Ho). rewrite H3 in E. discriminate E.
Qed.

Lemma main_save_never_completes_witness :
  outcome (main world_ep3 cli_save_dir) = Raised (Py.NameError "repo_id").
Proof.
  assert (N : (1 <> 0)%Z) by discriminate.
  destruct (main_save_never_completes world_ep3 cli_save_dir 1%Z
              ["path"; "to"; "directory"] eq_refl N eq_refl eq_refl)
    as (_ & _ & H).
  exact (proj1 (H eq_refl)).
Defined.
